(** * Public-signal validation of the passport verifier (zkverifier-kit)

    A shallow embedding of [passport.go] (the revision whose [VerifyProof]
    takes call-time options and whose [validateBase] expects 21 public
    signals), of the option mutators, and of the parts of the Go standard
    library and of ozzo-validation that this code calls, followed by the
    properties of the verifier.

    Go strings are byte sequences and are modelled by [string]; [int] and
    [int64] are modelled by [Z]; [val.Errors] (a [map[string]error]) is a
    [gmap string] of optional errors, a [nil] entry being [None]. *)

From Stdlib Require Import ZArith List String Ascii Lia Bool.
From stdpp Require Import gmap strings.

Set Warnings "-register-all".

Local Open Scope string_scope.
Local Open Scope list_scope.
Local Open Scope Z_scope.

(** ** time.Time *)

Module time.

(** A UTC instant by its calendar fields, as [Time.Date] and [Time.Clock]
    give them; [nanos] counts the nanoseconds since midnight.  Instants
    produced by the clock and by the decoders are normalised, so the
    chronological order is the lexicographic order of the fields. *)
Record Time : Type := mkTime { year : Z; month : Z; day : Z; nanos : Z }.

Definition compare (t u : Time) : comparison :=
  match year t ?= year u with
  | Eq => match month t ?= month u with
          | Eq => match day t ?= day u with
                  | Eq => nanos t ?= nanos u
                  | c => c
                  end
          | c => c
          end
  | c => c
  end.

(** [t.Before(u)], [t.After(u)]. *)
Definition Before (t u : Time) : bool :=
  match compare t u with Lt => true | _ => false end.
Definition After (t u : Time) : bool :=
  match compare t u with Gt => true | _ => false end.

(** [t.IsZero()]: January 1, year 1, 00:00:00 UTC. *)
Definition IsZero (t : Time) : bool :=
  (year t =? 1) && (month t =? 1) && (day t =? 1) && (nanos t =? 0).

Definition zero : Time := mkTime 1 1 1 0.

Definition isLeap (y : Z) : bool :=
  (y mod 4 =? 0) && (negb (y mod 100 =? 0) || (y mod 400 =? 0)).

(** [t.AddDate(years, 0, 0)], the only form the verifier uses.  Go
    rebuilds the instant with [Date(year+years, month, day, ...)], which
    normalises out-of-range days: with the month and day unchanged the one
    date that can fall out of range is February 29 in a target year that
    is not a leap year, and it becomes March 1. *)
Definition AddDate (t : Time) (years : Z) : Time :=
  let y := year t + years in
  if (month t =? 2) && (day t =? 29) && negb (isLeap y)
  then mkTime y 3 1 (nanos t)
  else mkTime y (month t) (day t) (nanos t).

End time.

Abbreviation Time := time.Time.

(** ** Errors *)

Inductive NumErrKind : Type := ErrSyntax | ErrRange.

(** The error values that reach a field of the report or the caller. *)
Inductive err : Type :=
| ErrRequired                               (* val.ErrRequired: cannot be blank *)
| ErrInInvalid                              (* val.ErrInInvalid: must be a valid value *)
| ErrLengthInvalid (min max : nat)          (* val.Length: the length must be ... *)
| ErrLengthOfValue                          (* cannot get the length of the value *)
| ErrMaxLessEqualThanRequired (threshold : Z)
| ErrToInt                                  (* val.ToInt: cannot convert to int64 *)
| NumError (func num : string) (kind : NumErrKind)  (* *strconv.NumError *)
| ErrDateInvalid                            (* a date rule on an undecodable value *)
| ErrDateTooLate
| ErrDateTooEarly
| ErrContractCall (detail : string)         (* wraps identity.ErrContractCall *)
| ErrOther (msg : string).                  (* any other collaborator error *)

#[global] Instance NumErrKind_eq_dec : EqDecision NumErrKind.
Proof. solve_decision. Defined.
#[global] Instance err_eq_dec : EqDecision err.
Proof. solve_decision. Defined.

(** [errors.Is(e, identity.ErrContractCall)] on an optional error. *)
Definition errors_Is_ErrContractCall (e : option err) : bool :=
  match e with
  | Some (ErrContractCall _) => true
  | _ => false
  end.

(** A Go [error] as the verifier's methods return it. *)
Inductive error : Type :=
| Leaf (e : err)                      (* a single error, returned as it is *)
| ValErrors (es : gmap string err)    (* val.Errors after Filter *)
| Wrapf (prefix : string) (e : err).  (* fmt.Errorf(prefix + ": %w", e) *)

(** ** ozzo-validation *)

Module val.

(** The dynamic values handed to [val.Validate] and [val.IsEmpty]. *)
Inductive value : Type :=
| VNil                       (* nil pointer or nil interface *)
| VPtr (v : value)           (* non-nil pointer *)
| VStruct                    (* a struct other than time.Time *)
| VString (s : string)
| VInt (n : Z)
| VTime (t : Time)
| VSlice (l : list value).

(** [reflect.DeepEqual] on these values. *)
Fixpoint DeepEqual (a b : value) {struct a} : bool :=
  match a, b with
  | VNil, VNil => true
  | VPtr x, VPtr y => DeepEqual x y
  | VStruct, VStruct => true
  | VString s, VString t => String.eqb s t
  | VInt n, VInt m => Z.eqb n m
  | VTime t, VTime u =>
      match time.compare t u with Eq => true | _ => false end
  | VSlice l, VSlice k =>
      (fix go (l k : list value) : bool :=
         match l, k with
         | [], [] => true
         | x :: l', y :: k' => DeepEqual x y && go l' k'
         | _, _ => false
         end) l k
  | _, _ => false
  end.

(** [val.IsEmpty]. *)
Fixpoint IsEmpty (v : value) : bool :=
  match v with
  | VNil => true
  | VPtr x => IsEmpty x
  | VStruct => false
  | VString s => (String.length s =? 0)%nat
  | VInt n => n =? 0
  | VTime t => time.IsZero t
  | VSlice l => (List.length l =? 0)%nat
  end.

(** [val.Indirect]: the value behind pointers, and whether it is nil. *)
Fixpoint Indirect (v : value) : value * bool :=
  match v with
  | VNil => (VNil, true)
  | VPtr x => Indirect x
  | _ => (v, false)
  end.

(** The rules the verifier builds.  [By] stands for a rule type of the
    package itself (a date rule, the event-data rule). *)
Inductive Rule : Type :=
| Required
| In (elements : list value)
| Length (min max : nat)
| Max (threshold : Z)
| When (condition : bool) (rules : list Rule)
| By (f : value -> option err).

Definition LengthOfValue (v : value) : option nat :=
  match v with
  | VString s => Some (String.length s)
  | VSlice l => Some (List.length l)
  | _ => None
  end.

(** [rule.Validate(value)]; [iter] is the loop of [val.Validate]: the
    first failing rule decides. *)
Fixpoint Rule_Validate (r : Rule) (v : value) {struct r} : option err :=
  match r with
  | Required =>
      let '(x, isNil) := Indirect v in
      if isNil || IsEmpty x then Some ErrRequired else None
  | In elements =>
      let '(x, isNil) := Indirect v in
      if isNil || IsEmpty x then None
      else if existsb (fun e => DeepEqual e x) elements then None
      else Some ErrInInvalid
  | Length min max =>
      let '(x, isNil) := Indirect v in
      if isNil || IsEmpty x then None
      else match LengthOfValue x with
           | None => Some ErrLengthOfValue
           | Some l =>
               if ((0 <? min) && (l <? min) || (0 <? max) && (max <? l)
                   || (min =? 0) && (max =? 0) && (0 <? l))%nat
               then Some (ErrLengthInvalid min max)
               else None
           end
  | Max threshold =>
      let '(x, isNil) := Indirect v in
      if isNil || IsEmpty x then None
      else match x with
           | VInt n => if n <=? threshold then None
                       else Some (ErrMaxLessEqualThanRequired threshold)
           | _ => Some ErrToInt
           end
  | When condition rules =>
      if condition
      then (fix iter (rs : list Rule) : option err :=
              match rs with
              | [] => None
              | r' :: rs' =>
                  match Rule_Validate r' v with
                  | Some e => Some e
                  | None => iter rs'
                  end
              end) rules
      else None
  | By f => f v
  end.

(** [val.Validate(value, rules...)].  None of the values above implements
    [Validatable], so nothing is checked once the rules have passed. *)
Fixpoint Validate (v : value) (rules : list Rule) : option err :=
  match rules with
  | [] => None
  | r :: rs =>
      match Rule_Validate r v with
      | Some e => Some e
      | None => Validate v rs
      end
  end.

(** [es.Filter()] on a [val.Errors] (field path to error or nil): drop
    the nil entries; nil when nothing is left. *)
Definition Filter (es : gmap string (option err)) : option error :=
  let es' : gmap string err := omap id es in
  if decide (es' = ∅) then None else Some (ValErrors es').

End val.

Example Filter_drops_nil :
  val.Filter (<["a" := None]> (<["b" := Some ErrRequired]> ∅))
  = Some (ValErrors {["b" := ErrRequired]}).
Proof. vm_compute. reflexivity. Qed.

Example Filter_all_nil :
  val.Filter (<["a" := None]> (<["b" := None]> ∅)) = None.
Proof. vm_compute. reflexivity. Qed.

(** ** strconv.ParseInt(s, 10, 64) *)

Module strconv.

Definition maxUint64 : Z := 2 ^ 64 - 1.

(** The digit loop of [ParseUint(s, 10, 64)] from the accumulator [n]:
    a byte that is not a decimal digit is a syntax error; an overflow is
    a range error, reported as soon as it is met. *)
Fixpoint parseUintLoop (cs : list ascii) (n : Z) : Z + NumErrKind :=
  match cs with
  | [] => inl n
  | c :: cs' =>
      let b := Z.of_N (N_of_ascii c) in
      if (48 <=? b) && (b <=? 57) then
        let d := b - 48 in
        let cutoff := maxUint64 / 10 + 1 in
        if cutoff <=? n then inr ErrRange
        else
          let n10 := (n * 10) mod 2 ^ 64 in
          let n1 := (n10 + d) mod 2 ^ 64 in
          if (n1 <? n10) || (maxUint64 <? n1) then inr ErrRange
          else parseUintLoop cs' n1
      else inr ErrSyntax
  end.

Definition ParseUint (s : string) : Z + NumErrKind :=
  match list_ascii_of_string s with
  | [] => inr ErrSyntax
  | cs => parseUintLoop cs 0
  end.

(** [ParseInt(s, 10, 64)]: the value, or the [*NumError] (the clamped
    value that Go returns next to a range error is dropped, the verifier
    does not read it). *)
Definition ParseInt (s0 : string) : Z + err :=
  match s0 with
  | EmptyString => inr (NumError "ParseInt" s0 ErrSyntax)
  | String c rest =>
      let b := Z.of_N (N_of_ascii c) in
      let neg := b =? 45 in
      let s := if (b =? 43) || (b =? 45) then rest else s0 in
      match ParseUint s with
      | inr k => inr (NumError "ParseInt" s0 k)
      | inl un =>
          let cutoff := 2 ^ 63 in
          if negb neg && (cutoff <=? un) then inr (NumError "ParseInt" s0 ErrRange)
          else if neg && (cutoff <? un) then inr (NumError "ParseInt" s0 ErrRange)
          else inl (if neg then - un else un)
      end
  end.

End strconv.

Example ParseInt_10 : strconv.ParseInt "10" = inl 10.
Proof. reflexivity. Qed.
Example ParseInt_neg : strconv.ParseInt "-9223372036854775808" = inl (- 2 ^ 63).
Proof. reflexivity. Qed.
Example ParseInt_range :
  strconv.ParseInt "9223372036854775808"
  = inr (NumError "ParseInt" "9223372036854775808" ErrRange).
Proof. reflexivity. Qed.
Example ParseInt_syntax :
  strconv.ParseInt "1_0" = inr (NumError "ParseInt" "1_0" ErrSyntax).
Proof. reflexivity. Qed.

(** ** crypto/sha256 and encoding/hex *)

Module sha256.

Definition w32 (x : Z) : Z := x mod 2 ^ 32.
Definition add32 (x y : Z) : Z := w32 (x + y).
Definition rotr (n x : Z) : Z :=
  Z.lor (Z.shiftr x n) (w32 (Z.shiftl x (32 - n))).
Definition not32 (x : Z) : Z := Z.lxor x (2 ^ 32 - 1).

Definition Ch (x y z : Z) : Z := Z.lxor (Z.land x y) (Z.land (not32 x) z).
Definition Maj (x y z : Z) : Z :=
  Z.lxor (Z.lxor (Z.land x y) (Z.land x z)) (Z.land y z).
Definition bsig0 (x : Z) : Z := Z.lxor (Z.lxor (rotr 2 x) (rotr 13 x)) (rotr 22 x).
Definition bsig1 (x : Z) : Z := Z.lxor (Z.lxor (rotr 6 x) (rotr 11 x)) (rotr 25 x).
Definition ssig0 (x : Z) : Z := Z.lxor (Z.lxor (rotr 7 x) (rotr 18 x)) (Z.shiftr x 3).
Definition ssig1 (x : Z) : Z := Z.lxor (Z.lxor (rotr 17 x) (rotr 19 x)) (Z.shiftr x 10).

(** The first sixty-four primes. *)
Definition primes : list Z :=
  [ 2; 3; 5; 7; 11; 13; 17; 19; 23; 29; 31; 37; 41; 43; 47; 53; 59; 61; 67;
    71; 73; 79; 83; 89; 97; 101; 103; 107; 109; 113; 127; 131; 137; 139; 149;
    151; 157; 163; 167; 173; 179; 181; 191; 193; 197; 199; 211; 223; 227;
    229; 233; 239; 241; 251; 257; 263; 269; 271; 277; 281; 283; 293; 307;
    311 ].

(** The integer cube root, one bit at a time from bit [k] down. *)
Fixpoint cbrt_bits (k : nat) (n r : Z) : Z :=
  match k with
  | O => r
  | S k' =>
      let c := r + 2 ^ Z.of_nat k' in
      cbrt_bits k' n (if c * c * c <=? n then c else r)
  end.

(** The round constants: the first 32 bits of the fractional parts of the
    cube roots of the primes. *)
Definition K : list Z :=
  Eval vm_compute in map (fun q => w32 (cbrt_bits 36 (q * 2 ^ 96) 0)) primes.

(** The eight working words. *)
Record digest : Type :=
  mkDigest { h0 : Z; h1 : Z; h2 : Z; h3 : Z; h4 : Z; h5 : Z; h6 : Z; h7 : Z }.

(** The initial words: the first 32 bits of the fractional parts of the
    square roots of the first eight primes. *)
Definition frac_sqrt (q : Z) : Z := w32 (Z.sqrt (q * 2 ^ 64)).

Definition init : digest :=
  Eval vm_compute in
    mkDigest (frac_sqrt 2) (frac_sqrt 3) (frac_sqrt 5) (frac_sqrt 7)
             (frac_sqrt 11) (frac_sqrt 13) (frac_sqrt 17) (frac_sqrt 19).

(** Big-endian words of a block of bytes. *)
Fixpoint words (bs : list Z) : list Z :=
  match bs with
  | a :: b :: c :: d :: bs' =>
      (a * 2 ^ 24 + b * 2 ^ 16 + c * 2 ^ 8 + d) :: words bs'
  | _ => []
  end.

(** The message schedule, extended by [n] more words. *)
Fixpoint schedule (n : nat) (w : list Z) : list Z :=
  match n with
  | O => w
  | S n' =>
      let t := List.length w in
      let at_ (i : nat) := nth (t - i) w 0 in
      schedule n'
        (w ++ [add32 (add32 (add32 (ssig1 (at_ 2%nat)) (at_ 7%nat))
                            (ssig0 (at_ 15%nat))) (at_ 16%nat)])
  end.

Definition round (s : digest) (kw : Z * Z) : digest :=
  let '(k, w) := kw in
  let t1 := add32 (add32 (add32 (add32 (h7 s) (bsig1 (h4 s)))
                                (Ch (h4 s) (h5 s) (h6 s))) k) w in
  let t2 := add32 (bsig0 (h0 s)) (Maj (h0 s) (h1 s) (h2 s)) in
  mkDigest (add32 t1 t2) (h0 s) (h1 s) (h2 s)
           (add32 (h3 s) t1) (h4 s) (h5 s) (h6 s).

Definition block (s : digest) (bs : list Z) : digest :=
  let w := schedule 48 (words bs) in
  let r := fold_left round (combine K w) s in
  mkDigest (add32 (h0 s) (h0 r)) (add32 (h1 s) (h1 r))
           (add32 (h2 s) (h2 r)) (add32 (h3 s) (h3 r))
           (add32 (h4 s) (h4 r)) (add32 (h5 s) (h5 r))
           (add32 (h6 s) (h6 r)) (add32 (h7 s) (h7 r)).

(** Big-endian bytes of [x], [n] of them. *)
Fixpoint be_bytes (n : nat) (x : Z) : list Z :=
  match n with
  | O => []
  | S n' => (Z.shiftr x (8 * Z.of_nat n')) mod 256 :: be_bytes n' x
  end.

Definition pad (msg : list Z) : list Z :=
  let len := Z.of_nat (List.length msg) in
  let zeros := Z.to_nat ((55 - len) mod 64) in
  msg ++ [0x80] ++ repeat 0 zeros ++ be_bytes 8 (8 * len).

(** The blocks of a padded message; [fuel] bounds their number. *)
Fixpoint blocks (fuel : nat) (s : digest) (bs : list Z) : digest :=
  match fuel, bs with
  | S fuel', _ :: _ => blocks fuel' (block s (firstn 64 bs)) (skipn 64 bs)
  | _, _ => s
  end.

(** [sha256.Sum256(data)]: the 32 bytes of the digest. *)
Definition Sum256 (data : list Z) : list Z :=
  let p := pad data in
  let s := blocks (List.length p) init p in
  be_bytes 4 (h0 s) ++ be_bytes 4 (h1 s) ++ be_bytes 4 (h2 s)
  ++ be_bytes 4 (h3 s) ++ be_bytes 4 (h4 s) ++ be_bytes 4 (h5 s)
  ++ be_bytes 4 (h6 s) ++ be_bytes 4 (h7 s).

End sha256.

Module hex.

Definition hextable : string := "0123456789abcdef".

Definition digit (n : Z) : ascii :=
  match String.get (Z.to_nat n) hextable with
  | Some c => c
  | None => "0"%char
  end.

(** [hex.EncodeToString(src)]: two lower-case digits per byte. *)
Fixpoint EncodeToString (src : list Z) : string :=
  match src with
  | [] => EmptyString
  | b :: src' =>
      String (digit (Z.shiftr b 4)) (String (digit (Z.land b 15)) (EncodeToString src'))
  end.

End hex.

(** [[]byte(s)]. *)
Definition bytes_of_string (s : string) : list Z :=
  map (fun c => Z.of_N (N_of_ascii c)) (list_ascii_of_string s).

Example sha256_abc :
  hex.EncodeToString (sha256.Sum256 (bytes_of_string "abc"))
  = "ba7816bf8f01cfea414140de5dae2223b00361a396177a9cb410ff61f20015ad".
Proof. vm_compute. reflexivity. Qed.

(** The digest that the package's tests expect for their address. *)
Example sha256_test_address :
  hex.EncodeToString
    (sha256.Sum256 (bytes_of_string "rarimo14c4vkfdv50gz9fqvjkcz4qjpm9z4sadmszucca"))
  = "5f3d4868bb9c16dd83407eda63d5ce8f7ca39063df9eb9aef217e6c6ee9ffb20".
Proof. vm_compute. reflexivity. Qed.

(** ** Proofs, options and their mutators *)

(** [zkptypes.ZKProof]: the proof container is a pointer and may be nil. *)
Record ProofData : Type :=
  mkProofData { A : list string; B : list (list string); C : list string;
                Protocol : string }.

Record ZKProof : Type :=
  mkZKProof { Proof : option ProofData; PubSignals : list string }.

(** Modelled from the spec: the declaration of [VerifyOptions] of this
    revision is not among the sources.  The fields are the ones that
    passport.go reads, with the types it uses them at: [age] is negated and
    passed to [AddDate] (an integer number of years, 0 when unset),
    [maxIdentitiesCount] is compared with -1 and passed to [val.Max],
    [maxIdentityCreationTimestamp] is passed to [beforeDate],
    [eventDataRule] is used as a [val.Rule] ([None] is the nil interface),
    and [rootVerifier] is the root-of-trust collaborator, which the spec
    requires to be always set.  Ages are small numbers of years: the
    negation of [age] is not wrapped. *)
Record VerifyOptions : Type :=
  mkVerifyOptions {
      externalID : string;
      age : Z;
      citizenships : list val.value;
      eventID : string;
      eventDataRule : option (val.value -> option err);
      maxIdentitiesCount : Z;
      maxIdentityCreationTimestamp : Time;
      rootVerifier : string -> option err;
      verificationKeyFile : string
    }.

(** A [VerifyOption] is a function on a pointer to [VerifyOptions]: here,
    the effect of the function on the structure pointed to.  The mutators
    of the package replace a field as a whole ([WithCitizenships] makes a
    new slice) and never write through a slice that the structure holds, so
    a copy of the structure shares nothing that they modify. *)
Definition VerifyOption : Type := VerifyOptions -> VerifyOptions.

Definition WithExternalID (identifier : string) : VerifyOption :=
  fun opts =>
    let idHash := sha256.Sum256 (bytes_of_string identifier) in
    mkVerifyOptions (hex.EncodeToString idHash) (age opts) (citizenships opts)
      (eventID opts) (eventDataRule opts) (maxIdentitiesCount opts)
      (maxIdentityCreationTimestamp opts) (rootVerifier opts)
      (verificationKeyFile opts).

(** Modelled from the spec: the minimum-age mutator of this revision is not
    among the sources (the one of the earlier revision stores a [time.Time],
    which [validateBase] could not negate).  It takes an integer number of
    years and stores it as a relative duration. *)
Definition WithAgeAbove (age' : Z) : VerifyOption :=
  fun opts =>
    mkVerifyOptions (externalID opts) age' (citizenships opts)
      (eventID opts) (eventDataRule opts) (maxIdentitiesCount opts)
      (maxIdentityCreationTimestamp opts) (rootVerifier opts)
      (verificationKeyFile opts).

(** A fresh slice is made and filled with the codes, in order. *)
Definition WithCitizenships (citizenships' : list string) : VerifyOption :=
  fun opts =>
    mkVerifyOptions (externalID opts) (age opts) (map val.VString citizenships')
      (eventID opts) (eventDataRule opts) (maxIdentitiesCount opts)
      (maxIdentityCreationTimestamp opts) (rootVerifier opts)
      (verificationKeyFile opts).

Definition WithEventID (identifier : string) : VerifyOption :=
  fun opts =>
    mkVerifyOptions (externalID opts) (age opts) (citizenships opts)
      identifier (eventDataRule opts) (maxIdentitiesCount opts)
      (maxIdentityCreationTimestamp opts) (rootVerifier opts)
      (verificationKeyFile opts).

(** Modelled from the spec: [mergeOptions] with a base argument is not among
    the sources (the earlier revision starts from the zero structure).  The
    base is received by value, and each option is applied in turn to that
    copy. *)
Definition mergeOptions (opts : VerifyOptions) (options : list VerifyOption)
  : VerifyOptions :=
  fold_left (fun acc opt => opt acc) options opts.

Record Verifier : Type :=
  mkVerifier { verificationKey : list Z; opts : VerifyOptions }.

(** ** The environment of a call *)

(** The wall clock: [clock k] is what the [k]-th reading of [time.Now().UTC()]
    returns, [ticks] counts the readings made so far. *)
Record World : Type := mkWorld { clock : nat -> Time; ticks : nat }.

(** What a call does that can be observed from outside its result. *)
Inductive event : Type :=
| EvReadSignal (i : nat)
| EvVerifyRoot (root : string) (r : option err)
| EvVerifyGroth16 (proof : ZKProof) (key : list Z) (r : option err).

Inductive res (T : Type) : Type :=
| Ok (x : T)
| Panic.
Arguments Ok {T} x.
Arguments Panic {T}.

(** A computation reads and advances the world, emits events, and returns
    or panics. *)
Definition M (T : Type) : Type := World -> res T * World * list event.

Definition ret {T} (x : T) : M T := fun w => (Ok x, w, []).

Definition bind {T U} (m : M T) (k : T -> M U) : M U :=
  fun w =>
    match m w with
    | (Ok x, w', evs) =>
        let '(r, w'', evs') := k x w' in (r, w'', (evs ++ evs')%list)
    | (Panic, w', evs) => (Panic, w', evs)
    end.

Declare Scope go_scope.
Delimit Scope go_scope with go.
Notation "x <- m ;; k" := (bind m (fun x => k))
  (at level 100, m at next level, right associativity) : go_scope.

(** [time.Now().UTC()]. *)
Definition time_Now : M Time :=
  fun w => (Ok (clock w (ticks w)), mkWorld (clock w) (S (ticks w)), []).

(** [signals[i]]: an index out of range panics. *)
Definition index (signals : list string) (i : nat) : M string :=
  fun w =>
    match signals !! i with
    | Some s => (Ok s, w, [EvReadSignal i])
    | None => (Panic, w, [])
    end.

(** [rootVerifier.VerifyRoot(root)]. *)
Definition VerifyRoot (verifier : string -> option err) (root : string)
  : M (option err) :=
  fun w => let r := verifier root in (Ok r, w, [EvVerifyRoot root r]).

(** ** Signal layout *)

Definition Nullifier : nat := 0.
Definition Citizenship : nat := 6.
Definition EventID : nat := 9.
Definition EventData : nat := 10.
Definition IdStateRoot : nat := 11.
Definition Selector : nat := 12.
Definition TimestampUpperBound : nat := 14.
Definition IdentityCounterUpperBound : nat := 16.
Definition BirthdateUpperBound : nat := 18.
Definition ExpirationDateLowerBound : nat := 19.

Definition proofSelectorValue : string := "39".

(** ** Fixtures for the concrete examples *)

Module Fixtures.

(** Decimal digits to a number; [None] on any other byte. *)
Fixpoint decimal (cs : list ascii) (acc : Z) : option Z :=
  match cs with
  | [] => Some acc
  | c :: cs' =>
      let b := Z.of_N (N_of_ascii c) in
      if (48 <=? b) && (b <=? 57) then decimal cs' (acc * 10 + (b - 48))
      else None
  end.

(** A stand-in date decoder: the signal is read as the eight digits
    YYYYMMDD, at midnight. *)
Definition parseDate (s : string) : option Time :=
  if (String.length s =? 8)%nat then
    match decimal (list_ascii_of_string s) 0 with
    | Some n => Some (time.mkTime (n / 10000) ((n / 100) mod 100) (n mod 100) 0)
    | None => None
    end
  else None.

(** The bytes packed in a decimal integer, most significant first. *)
Fixpoint unpack (fuel : nat) (n : Z) (acc : string) : string :=
  match fuel with
  | O => acc
  | S fuel' =>
      if n =? 0 then acc
      else unpack fuel' (n / 256)
             (String (ascii_of_N (Z.to_N (n mod 256))) acc)
  end.

Definition decodeInt (s : string) : string :=
  match decimal (list_ascii_of_string s) 0 with
  | Some n => unpack (String.length s) n EmptyString
  | None => EmptyString
  end.

(** A pairing check that accepts, and one that rejects. *)
Definition groth16_ok (_ : ZKProof) (_ : list Z) : option err := None.
Definition groth16_bad (_ : ZKProof) (_ : list Z) : option err :=
  Some (ErrOther "invalid proof").

(** Root verifiers with each of the three outcomes. *)
Definition root_ok (_ : string) : option err := None.
Definition root_invalid (_ : string) : option err :=
  Some (ErrOther "invalid root").
Definition root_unreachable (_ : string) : option err :=
  Some (ErrContractCall "failed to call the contract").

Definition proofData : ProofData :=
  mkProofData ["1"; "2"; "1"] [["1"; "2"]; ["3"; "4"]; ["1"; "0"]]
              ["5"; "6"; "1"] "groth16".

(** Twenty-one signals: a nullifier, citizenship UKR, an event id, the
    selector, the timestamp and counter bounds, a birth date and an
    expiration date. *)
Definition signals (counter timestamp : string) : list string :=
  [ "13670197989959160947016892212488819355235823437209979068218084261720054582279";
    "0"; "0"; "0"; "0"; "0";
    "5589842";
    "0"; "0";
    "304358862882731539112827930982999386691702727710421481944329166126417129570";
    "994318722035655867941976495378932234159094527419";
    "12951550518411690859840573908810811336996269038828192037883707959753719498363";
    "39";
    "0";
    timestamp;
    "0";
    counter;
    "0";
    "20020614";
    "20280703";
    "0" ].

Definition proof (counter timestamp : string) : ZKProof :=
  mkZKProof (Some proofData) (signals counter timestamp).

(** No optional check configured; the count is unbounded. *)
Definition options (root : string -> option err) : VerifyOptions :=
  mkVerifyOptions "" 0 [] "" None (-1) time.zero root "".

Definition verifier (o : VerifyOptions) : Verifier := mkVerifier [1; 2; 3] o.

(** Limits on the identity count and on the creation timestamp. *)
Definition optionsBounded (limit : Z) (timestamp : Time)
           (root : string -> option err) : VerifyOptions :=
  mkVerifyOptions "" 0 [] "" None limit timestamp root "".

Definition noon : Z := 43200000000000.

(** A world whose clock always reads [t]. *)
Definition worldAt (t : Time) : World := mkWorld (fun _ => t) 0%nat.

(** Every reading of the clock gives noon on 14 June 2024. *)
Definition world : World := worldAt (time.mkTime 2024 6 14 noon).

Definition feb29 : Time := time.mkTime 2024 2 29 noon.
Definition mar1 : Time := time.mkTime 2024 3 1 noon.

(** A proof with twenty signals. *)
Definition shortProof : ZKProof :=
  mkZKProof (Some proofData) (firstn 20 (signals "3" "20200101")).

(** The address that the package's tests use as an external identifier. *)
Definition validAddress : string :=
  "rarimo14c4vkfdv50gz9fqvjkcz4qjpm9z4sadmszucca".
Definition hashedExternalID : string :=
  "5f3d4868bb9c16dd83407eda63d5ce8f7ca39063df9eb9aef217e6c6ee9ffb20".

End Fixtures.

Example decodeInt_UKR : Fixtures.decodeInt "5589842" = "UKR".
Proof. reflexivity. Qed.

(** ** The minimum-age mutator of the earlier revision

    The option file among the sources belongs to the revision before the one
    of [validateBase]: there the [age] field is a [time.Time], and the
    mutator reads the clock when it is applied. *)

Module Earlier.

Record VerifyOptions : Type :=
  mkVerifyOptions {
      externalID : string;
      age : Time;
      citizenships : list val.value;
      address : list Z;
      eventID : string
    }.

Definition WithAgeAbove (age' : Z) (opts : VerifyOptions) : M VerifyOptions :=
  (now <- time_Now ;;
   ret (mkVerifyOptions (externalID opts) (time.AddDate now (- age'))
          (citizenships opts) (address opts) (eventID opts)))%go.

(** The instant it stores is fixed by the clock at configuration time. *)
Lemma WithAgeAbove_reads_the_clock (n : Z) (opts : VerifyOptions) (w : World) :
  exists opts',
    WithAgeAbove n opts w = (Ok opts', mkWorld (clock w) (S (ticks w)), [])
    /\ age opts' = time.AddDate (clock w (ticks w)) (- n).
Proof. eexists. split; reflexivity. Qed.

(** An option is a function on a pointer to the structure; applying it may
    read the clock. *)
Definition VerifyOption : Type := VerifyOptions -> M VerifyOptions.

Definition WithExternalID (identifier : string) : VerifyOption :=
  fun opts =>
    let idHash := sha256.Sum256 (bytes_of_string identifier) in
    ret (mkVerifyOptions (hex.EncodeToString idHash) (age opts)
           (citizenships opts) (address opts) (eventID opts)).

Definition WithCitizenships (citizenships' : list string) : VerifyOption :=
  fun opts =>
    ret (mkVerifyOptions (externalID opts) (age opts)
           (map val.VString citizenships') (address opts) (eventID opts)).

Definition WithAddress (address' : list Z) : VerifyOption :=
  fun opts =>
    ret (mkVerifyOptions (externalID opts) (age opts) (citizenships opts)
           address' (eventID opts)).

Definition WithEventID (identifier : string) : VerifyOption :=
  fun opts =>
    ret (mkVerifyOptions (externalID opts) (age opts) (citizenships opts)
           (address opts) identifier).

(** The loop of [mergeOptions]: each option in turn, on the same structure. *)
Fixpoint applyAll (options : list VerifyOption) (opts : VerifyOptions)
  : M VerifyOptions :=
  match options with
  | [] => ret opts
  | opt :: rest => (o <- opt opts ;; applyAll rest o)%go
  end.

(** [mergeOptions(options...)] starts from the zero structure. *)
Definition mergeOptions (options : list VerifyOption) : M VerifyOptions :=
  applyAll options (mkVerifyOptions "" time.zero [] [] "").

(** An option that does not read the clock and leaves the age as it is. *)
Definition keepsAge (opt : VerifyOption) : Prop :=
  exists f : VerifyOptions -> VerifyOptions,
    (forall o, opt o = ret (f o)) /\ (forall o, age (f o) = age o).

Lemma applyAll_app (xs ys : list VerifyOption) (o : VerifyOptions) (w : World) :
  applyAll (xs ++ ys) o w
  = match applyAll xs o w with
    | (Ok o1, w1, evs1) =>
        let '(r, w2, evs2) := applyAll ys o1 w1 in (r, w2, evs1 ++ evs2)
    | (Panic, w1, evs1) => (Panic, w1, evs1)
    end.
Proof.
  revert o w. induction xs as [|x xs IH]; intros o w.
  - simpl. destruct (applyAll ys o w) as [[r w2] evs2]. reflexivity.
  - cbn [applyAll app]. unfold bind.
    destruct (x o w) as [[[o'|] w'] evs']; [|reflexivity].
    rewrite IH. destruct (applyAll xs o' w') as [[[o1|] w1] evs1].
    + destruct (applyAll ys o1 w1) as [[r w2] evs2]. rewrite app_assoc.
      reflexivity.
    + reflexivity.
Qed.

Lemma applyAll_keepsAge (ys : list VerifyOption) (o : VerifyOptions) (w : World) :
  Forall keepsAge ys ->
  exists o', applyAll ys o w = (Ok o', w, []) /\ age o' = age o.
Proof.
  intros H. revert o. induction H as [|y ys (f & Hf & Hage) _ IH]; intros o.
  - exists o. split; reflexivity.
  - cbn [applyAll]. unfold bind. rewrite Hf. cbn [ret].
    destruct (IH (f o)) as (o' & -> & Ho'). exists o'. split; [reflexivity|].
    rewrite Ho'. apply Hage.
Qed.

Lemma mutators_keepAge (identifier : string) (codes : list string)
      (address' : list Z) (event : string) :
  keepsAge (WithExternalID identifier) /\ keepsAge (WithCitizenships codes)
  /\ keepsAge (WithAddress address') /\ keepsAge (WithEventID event).
Proof.
  repeat split; eexists; split; intros o; reflexivity.
Qed.

(** X13. In the revision of the option file, the bound of the minimum age
    is fixed when the options are merged: the age that [mergeOptions]
    stores is the clock read when the last [WithAgeAbove] of the list is
    applied, moved back by its number of years; the options that follow it
    and keep the age neither read the clock nor change that instant. *)
Theorem merged_age_is_fixed_at_merge
        (xs ys : list VerifyOption) (n : Z) (w w1 : World)
        (o1 : VerifyOptions) (evs1 : list event) :
  mergeOptions xs w = (Ok o1, w1, evs1) ->
  Forall keepsAge ys ->
  exists o,
    mergeOptions (xs ++ WithAgeAbove n :: ys) w
    = (Ok o, mkWorld (clock w1) (S (ticks w1)), evs1)
    /\ age o = time.AddDate (clock w1 (ticks w1)) (- n).
Proof.
  unfold mergeOptions. intros Hxs Hys. rewrite applyAll_app, Hxs.
  cbn [applyAll]. unfold bind, WithAgeAbove at 1, time_Now, ret at 1.
  destruct (applyAll_keepsAge ys
              (mkVerifyOptions (externalID o1)
                 (time.AddDate (clock w1 (ticks w1)) (- n))
                 (citizenships o1) (address o1) (eventID o1))
              (mkWorld (clock w1) (S (ticks w1))) Hys) as (o & Ho & Hage).
  exists o. simpl. rewrite Ho. rewrite !app_nil_r.
  split; [reflexivity|exact Hage].
Qed.

End Earlier.

(** ** The verifier *)

Section Verifier.

Local Open Scope go_scope.

(** The decoding of a date signal, the decoding of a packed integer into
    the bytes it packs, and the Groth16 pairing check of go-rapidsnark:
    none of them is among the sources, and no property below depends on
    what they compute. *)
Variable parseDate : string -> option Time.
Variable decodeInt : string -> string.
Variable zkpverifier_VerifyGroth16 : ZKProof -> list Z -> option err.

(** [zkpverifier.VerifyGroth16(proof, key)]. *)
Definition VerifyGroth16 (proof : ZKProof) (key : list Z) : M (option err) :=
  fun w =>
    let r := zkpverifier_VerifyGroth16 proof key in
    (Ok r, w, [EvVerifyGroth16 proof key r]).

(** Modelled from the spec: the date rules are not among the sources.
    [beforeDate point] accepts a value that parses to a date on or before
    [point]; [afterDate point] accepts a value that parses to a date
    strictly after [point]. *)
Definition beforeDate (point : Time) : val.Rule :=
  val.By (fun v =>
            match v with
            | val.VString s =>
                match parseDate s with
                | Some d => if time.After d point then Some ErrDateTooLate else None
                | None => Some ErrDateInvalid
                end
            | _ => Some ErrDateInvalid
            end).

(** Modelled from the spec: [afterDate], the other date rule, is not among
    the sources either; it accepts a value that parses to a date strictly
    after [point]. *)
Definition afterDate (point : Time) : val.Rule :=
  val.By (fun v =>
            match v with
            | val.VString s =>
                match parseDate s with
                | Some d => if time.After d point then None else Some ErrDateTooEarly
                | None => Some ErrDateInvalid
                end
            | _ => Some ErrDateInvalid
            end).

(** Modelled from the spec: [validateOnOptSet] is not among the sources.
    The check runs only if the option is set (not empty); it then requires
    the value and applies the rule, as the conditional checks of the
    earlier revision do with [val.When]. *)
Definition validateOnOptSet (value opt : val.value) (rule : val.Rule)
  : option err :=
  val.Validate value
    [val.When (negb (val.IsEmpty opt)) [val.Required; rule]].

(** The event-data rule as a dynamic value and as a rule; the nil rule is
    never applied. *)
Definition ruleValue (r : option (val.value -> option err)) : val.value :=
  match r with Some _ => val.VStruct | None => val.VNil end.
Definition ruleOf (r : option (val.value -> option err)) : val.Rule :=
  match r with Some f => val.By f | None => val.By (fun _ => None) end.

(** The two legs of the freshness pair, [cErr] and [tErr]. *)
Definition cErr (v : Verifier) (counter : Z) : option err :=
  val.Validate (val.VInt counter)
    [val.When (negb (maxIdentitiesCount (opts v) =? -1))
       [val.Required; val.Max (maxIdentitiesCount (opts v))]].

Definition tErr (v : Verifier) (timestamp : string) : option err :=
  validateOnOptSet (val.VString timestamp)
    (val.VTime (maxIdentityCreationTimestamp (opts v)))
    (beforeDate (maxIdentityCreationTimestamp (opts v))).

Definition validateIdentitiesInputs (v : Verifier) (signals : list string)
  : M (gmap string (option err)) :=
  s <- index signals IdentityCounterUpperBound ;;
  match strconv.ParseInt s with
  | inr e => ret {[ "pub_signals/identity_counter_upper_bound" := Some e ]}
  | inl counter =>
      ts <- index signals TimestampUpperBound ;;
      let c := cErr v counter in
      let t := tErr v ts in
      (* OR logic: at least one of the signals should be valid *)
      match c with
      | Some _ => ret {[ "pub_signals/timestamp_upper_bound" := t ]}
      | None =>
          match t with
          | Some _ => ret {[ "pub_signals/identity_counter_upper_bound" := c ]}
          | None => ret ∅
          end
      end
  end.

(** The first two checks of [validateBase]: the shape of the proof. *)
Definition validateShape (zkProof : ZKProof) : option error :=
  val.Filter
    (<[ "zk_proof/proof" :=
          val.Validate
            (match Proof zkProof with
             | Some _ => val.VPtr val.VStruct
             | None => val.VNil
             end) [val.Required] ]>
     (<[ "zk_proof/pub_signals" :=
           val.Validate (val.VSlice (map val.VString (PubSignals zkProof)))
             [val.Required; val.Length 21 21] ]> ∅)).

(** The local [allowedBirthDate] and the map literal [all] of
    [validateBase], from the signals it reads, the two readings of the
    clock and the answer of the root verifier. *)
Definition allowedBirthDate (v : Verifier) (now : Time) : Time :=
  time.AddDate now (- age (opts v)).

Definition all (v : Verifier) (rootErr : option err) (now now' : Time)
           (nullifier selector expiration eventID' birthdate citizenship
              eventData : string) : gmap string (option err) :=
  <[ "pub_signals/nullifier" :=
       val.Validate (val.VString nullifier) [val.Required] ]>
  (<[ "pub_signals/selector" :=
        val.Validate (val.VString selector)
          [val.Required; val.In [val.VString proofSelectorValue]] ]>
  (<[ "pub_signals/expiration_date_lower_bound" :=
        val.Validate (val.VString expiration)
          [val.Required; afterDate now'] ]>
  (<[ "pub_signals/id_state_hash" := rootErr ]>
  (<[ "pub_signals/event_id" :=
        validateOnOptSet (val.VString eventID')
          (val.VString (eventID (opts v)))
          (val.In [val.VString (eventID (opts v))]) ]>
  (* upper bound is a date: the earlier it is, the higher the age *)
  (<[ "pub_signals/birth_date_upper_bound" :=
        validateOnOptSet (val.VString birthdate)
          (val.VInt (age (opts v))) (beforeDate (allowedBirthDate v now)) ]>
  (<[ "pub_signals/citizenship" :=
        validateOnOptSet (val.VString (decodeInt citizenship))
          (val.VSlice (citizenships (opts v)))
          (val.In (citizenships (opts v))) ]>
  (<[ "pub_signals/event_data" :=
        validateOnOptSet (val.VString eventData)
          (ruleValue (eventDataRule (opts v)))
          (ruleOf (eventDataRule (opts v))) ]> ∅))))))).

Definition validateBase (v : Verifier) (zkProof : ZKProof) : M (option error) :=
  let signals := PubSignals zkProof in
  match validateShape zkProof with
  | Some e => ret (Some e)
  | None =>
      root <- index signals IdStateRoot ;;
      rootErr <- VerifyRoot (rootVerifier (opts v)) root ;;
      if errors_Is_ErrContractCall rootErr then ret (option_map Leaf rootErr)
      else
        now <- time_Now ;;
        nullifier <- index signals Nullifier ;;
        selector <- index signals Selector ;;
        expiration <- index signals ExpirationDateLowerBound ;;
        now' <- time_Now ;;
        eventID' <- index signals EventID ;;
        birthdate <- index signals BirthdateUpperBound ;;
        citizenship <- index signals Citizenship ;;
        eventData <- index signals EventData ;;
        ids <- validateIdentitiesInputs v signals ;;
        (* for field, e := range ids { all[field] = e } *)
        ret (val.Filter
               (ids ∪ all v rootErr now now' nullifier selector expiration
                          eventID' birthdate citizenship eventData))
  end.

(** [VerifyProof] has a pointer receiver: next to the error it returns,
    the model gives the value of the receiver after the call. *)
Definition VerifyProof (v : Verifier) (proof : ZKProof)
           (options : list VerifyOption) : M (option error * Verifier) :=
  let v2 := mkVerifier (verificationKey v) (mergeOptions (opts v) options) in
  r <- validateBase v2 proof ;;
  match r with
  | Some e => ret (Some e, v)
  | None =>
      g <- VerifyGroth16 proof (verificationKey v) ;;
      match g with
      | Some e => ret (Some (Wrapf "groth16 verification failed" e), v)
      | None => ret (None, v)
      end
  end.

(** [VerifyExternalID]: the configured digest is validated against the
    argument. *)
Definition VerifyExternalID (v : Verifier) (externalID' : string)
  : option error :=
  val.Filter
    {[ "external_id" :=
         val.Validate (val.VString (externalID (opts v)))
           [val.Required; val.In [val.VString externalID']] ]}.

(** [SetExternalID] writes the receiver. *)
Definition SetExternalID (v : Verifier) (externalID' : string) : Verifier :=
  mkVerifier (verificationKey v) (WithExternalID externalID' (opts v)).

(** *** What the freshness pair reports and reads

    The map that [validateIdentitiesInputs] returns for a counter signal
    and a timestamp signal, and the positions it reads; they are related
    to the function itself by [validateIdentitiesInputs_run] below. *)
Definition identities (v : Verifier) (counter timestamp : string)
  : gmap string (option err) :=
  match strconv.ParseInt counter with
  | inr e => {[ "pub_signals/identity_counter_upper_bound" := Some e ]}
  | inl c =>
      match cErr v c with
      | Some _ => {[ "pub_signals/timestamp_upper_bound" := tErr v timestamp ]}
      | None =>
          match tErr v timestamp with
          | Some _ => {[ "pub_signals/identity_counter_upper_bound" := None ]}
          | None => ∅
          end
      end
  end.

Definition identitiesReads (counter : string) : list event :=
  match strconv.ParseInt counter with
  | inr _ => [EvReadSignal IdentityCounterUpperBound]
  | inl _ => [EvReadSignal IdentityCounterUpperBound;
              EvReadSignal TimestampUpperBound]
  end.

(** The signal at a position of a vector that has it. *)
Definition signal (signals : list string) (i : nat) : string :=
  default "" (signals !! i).

(** What a run of [validateBase] does once the shape is accepted and the
    root verifier has answered without an infrastructure failure. *)
Definition baseReads (signals : list string) (rootErr : option err)
  : list event :=
  [EvReadSignal IdStateRoot; EvVerifyRoot (signal signals IdStateRoot) rootErr;
   EvReadSignal Nullifier; EvReadSignal Selector;
   EvReadSignal ExpirationDateLowerBound; EvReadSignal EventID;
   EvReadSignal BirthdateUpperBound; EvReadSignal Citizenship;
   EvReadSignal EventData]
  ++ identitiesReads (signal signals IdentityCounterUpperBound).

Definition baseReport (v : Verifier) (signals : list string)
           (rootErr : option err) (w : World) : gmap string (option err) :=
  identities v (signal signals IdentityCounterUpperBound)
               (signal signals TimestampUpperBound)
  ∪ all v rootErr (clock w (ticks w)) (clock w (S (ticks w)))
        (signal signals Nullifier) (signal signals Selector)
        (signal signals ExpirationDateLowerBound) (signal signals EventID)
        (signal signals BirthdateUpperBound) (signal signals Citizenship)
        (signal signals EventData).

Definition isGroth16 (ev : event) : Prop :=
  match ev with EvVerifyGroth16 _ _ _ => True | _ => False end.

(** Every event that [m] emits satisfies [P]. *)
Definition emitsOnly (P : event -> Prop) {T} (m : M T) : Prop :=
  forall w, Forall P (m w).2.

(** The one pair of distinct instants that [AddDate] by [years] sends to
    the same instant: February 29 and March 1 of a year, at the same time
    of day, when the target year has no February 29. *)
Definition leapDayPair (t u : Time) (years : Z) : Prop :=
  time.year t = time.year u /\ time.nanos t = time.nanos u
  /\ time.isLeap (time.year t + years) = false
  /\ ((time.month t = 2 /\ time.day t = 29 /\ time.month u = 3 /\ time.day u = 1)
      \/ (time.month u = 2 /\ time.day u = 29 /\ time.month t = 3 /\ time.day t = 1)).

(** *** Reports *)

Lemma Filter_Some (es : gmap string (option err)) (e : error) :
  val.Filter es = Some e ->
  e = ValErrors (omap id es) /\ omap id es <> (∅ : gmap string err).
Proof.
  unfold val.Filter. destruct (decide _) as [?|Hne]; [discriminate|].
  intros [= <-]. done.
Qed.

Lemma Filter_None (es : gmap string (option err)) :
  val.Filter es = None <-> forall k, es !! k = None \/ es !! k = Some None.
Proof.
  unfold val.Filter. destruct (decide _) as [He|Hne]; split; try done.
  - intros _ k. assert (H := f_equal (fun m => m !! k) He). simpl in H.
    rewrite lookup_omap, lookup_empty in H.
    destruct (es !! k) as [[x|]|]; simpl in H; try discriminate; auto.
  - intros H. exfalso. apply Hne. apply map_eq. intros k.
    rewrite lookup_omap, lookup_empty. destruct (H k) as [-> | ->]; done.
Qed.

Lemma Filter_entry (es : gmap string (option err)) (k : string) (e : err) :
  es !! k = Some (Some e) ->
  val.Filter es = Some (ValErrors (omap id es)).
Proof.
  intros Hk. unfold val.Filter. destruct (decide _) as [He|]; [|done].
  assert (H := f_equal (fun m => m !! k) He). simpl in H.
  rewrite lookup_omap, Hk, lookup_empty in H. discriminate.
Qed.

(** *** The shape check *)

Lemma validateShape_None (p : ZKProof) :
  validateShape p = None <->
  is_Some (Proof p) /\ List.length (PubSignals p) = 21%nat.
Proof.
  destruct p as [pd sigs]. unfold validateShape. rewrite Filter_None. simpl.
  split.
  - intros H. split.
    + destruct (H "zk_proof/proof") as [H1|H1];
        rewrite lookup_insert_eq in H1; try discriminate.
      destruct pd; [eauto | discriminate].
    + destruct (H "zk_proof/pub_signals") as [H1|H1];
        rewrite lookup_insert_ne, lookup_insert_eq in H1 by done;
        try discriminate.
      do 22 (destruct sigs as [|? sigs]; try discriminate). reflexivity.
  - intros [[x ->] Hl].
    do 22 (destruct sigs as [|? sigs]; try discriminate).
    intros k. destruct (decide (k = "zk_proof/proof")) as [->|];
      [right; by rewrite lookup_insert_eq|].
    rewrite lookup_insert_ne by done.
    destruct (decide (k = "zk_proof/pub_signals")) as [->|];
      [right; by rewrite lookup_insert_eq|].
    rewrite lookup_insert_ne by done. left. apply lookup_empty.
Qed.

Lemma validateShape_Some (p : ZKProof) (e : error) :
  validateShape p = Some e ->
  exists m : gmap string err,
    e = ValErrors m /\ m <> ∅
    /\ forall k, is_Some (m !! k) ->
                k = "zk_proof/proof" \/ k = "zk_proof/pub_signals".
Proof.
  unfold validateShape. intros H. apply Filter_Some in H as [-> Hne].
  eexists. split; [reflexivity|]. split; [exact Hne|].
  intros k [x Hx]. rewrite lookup_omap in Hx.
  destruct (decide (k = "zk_proof/proof")) as [->|]; [by left|].
  rewrite lookup_insert_ne in Hx by done.
  destruct (decide (k = "zk_proof/pub_signals")) as [->|]; [by right|].
  rewrite lookup_insert_ne, lookup_empty in Hx by done. discriminate.
Qed.

(** *** Runs *)

Lemma validateIdentitiesInputs_run (v : Verifier) (signals : list string)
      (w : World) :
  is_Some (signals !! IdentityCounterUpperBound) ->
  is_Some (signals !! TimestampUpperBound) ->
  validateIdentitiesInputs v signals w
  = (Ok (identities v (signal signals IdentityCounterUpperBound)
                      (signal signals TimestampUpperBound)),
     w, identitiesReads (signal signals IdentityCounterUpperBound)).
Proof.
  intros [c Hc] [t Ht].
  unfold validateIdentitiesInputs, identities, identitiesReads, signal,
    bind, index, ret.
  rewrite Hc. simpl. destruct (strconv.ParseInt c) as [n|e]; [|reflexivity].
  rewrite Ht. simpl. destruct (cErr v n); [reflexivity|].
  destruct (tErr v t); reflexivity.
Qed.

(** A run of [validateBase] on a proof of the right shape: it returns, and
    either hands back the infrastructure failure of the root verifier or
    filters the report of all the fields. *)
Lemma validateBase_run (v : Verifier) (p : ZKProof) (w : World) :
  is_Some (Proof p) -> List.length (PubSignals p) = 21%nat ->
  let rootErr := rootVerifier (opts v) (signal (PubSignals p) IdStateRoot) in
  validateBase v p w
  = if errors_Is_ErrContractCall rootErr
    then (Ok (option_map Leaf rootErr), w,
          [EvReadSignal IdStateRoot;
           EvVerifyRoot (signal (PubSignals p) IdStateRoot) rootErr])
    else (Ok (val.Filter (baseReport v (PubSignals p) rootErr w)),
          mkWorld (clock w) (S (S (ticks w))),
          baseReads (PubSignals p) rootErr).
Proof.
  intros Hp Hl. unfold validateBase.
  rewrite (proj2 (validateShape_None p) (conj Hp Hl)).
  destruct p as [pd sigs]. simpl in *.
  do 22 (destruct sigs as [|? sigs]; try discriminate). clear Hl.
  unfold bind at 1. unfold index at 1. simpl.
  unfold bind at 1. unfold VerifyRoot at 1. simpl.
  unfold signal at 1 2 3. simpl.
  destruct (errors_Is_ErrContractCall _); [reflexivity|].
  unfold bind, index, time_Now, ret. simpl.
  rewrite validateIdentitiesInputs_run by (simpl; eauto).
  rewrite app_nil_r. reflexivity.
Qed.

Lemma validateBase_shape_error (v : Verifier) (p : ZKProof) (w : World)
      (e : error) :
  validateShape p = Some e -> validateBase v p w = (Ok (Some e), w, []).
Proof. intros H. unfold validateBase. rewrite H. reflexivity. Qed.


(** *** Events *)

Lemma emitsOnly_ret (P : event -> Prop) {T} (x : T) : emitsOnly P (ret x).
Proof. intros w. constructor. Qed.

Lemma emitsOnly_bind (P : event -> Prop) {T U} (m : M T) (k : T -> M U) :
  emitsOnly P m -> (forall x, emitsOnly P (k x)) -> emitsOnly P (bind m k).
Proof.
  intros Hm Hk w. unfold bind. specialize (Hm w).
  destruct (m w) as [[[x|] w'] evs]; simpl in *; [|exact Hm].
  specialize (Hk x w'). destruct (k x w') as [[r w''] evs']. simpl in *.
  apply Forall_app. split; assumption.
Qed.

Lemma emitsOnly_index (P : event -> Prop) (signals : list string) (i : nat) :
  P (EvReadSignal i) -> emitsOnly P (index signals i).
Proof.
  intros HP w. unfold index. destruct (signals !! i); simpl; auto.
Qed.

Lemma emitsOnly_VerifyRoot (P : event -> Prop) (f : string -> option err)
      (root : string) :
  (forall r, P (EvVerifyRoot root r)) -> emitsOnly P (VerifyRoot f root).
Proof. intros HP w. unfold VerifyRoot. simpl. auto. Qed.

Lemma emitsOnly_time_Now (P : event -> Prop) : emitsOnly P time_Now.
Proof. intros w. constructor. Qed.

Create HintDb emits.
Hint Resolve emitsOnly_ret emitsOnly_index emitsOnly_VerifyRoot
     emitsOnly_time_Now : emits.

Ltac emits_step :=
  first [ apply emitsOnly_bind; [solve [auto with emits] | intros ? ]
        | solve [auto with emits] ].

Lemma validateIdentitiesInputs_no_groth16 (v : Verifier) (signals : list string) :
  emitsOnly (fun ev => ~ isGroth16 ev) (validateIdentitiesInputs v signals).
Proof.
  unfold validateIdentitiesInputs. emits_step.
  destruct (strconv.ParseInt _); [|emits_step].
  emits_step. destruct (cErr _ _); [emits_step|].
  destruct (tErr _ _); emits_step.
Qed.

(** The validation itself never runs the pairing check. *)
Lemma validateBase_no_groth16 (v : Verifier) (p : ZKProof) :
  emitsOnly (fun ev => ~ isGroth16 ev) (validateBase v p).
Proof.
  unfold validateBase. destruct (validateShape p); [emits_step|].
  do 2 emits_step. destruct (errors_Is_ErrContractCall _); [emits_step|].
  do 9 emits_step.
  apply emitsOnly_bind; [apply validateIdentitiesInputs_no_groth16|intros ?].
  emits_step.
Qed.

(** *** The facade *)

(** The verifier that [VerifyProof] validates with: the stored key and the
    stored options overridden by the call-time ones. *)
Lemma VerifyProof_unfold (v : Verifier) (p : ZKProof)
      (options : list VerifyOption) (w : World) :
  VerifyProof v p options w
  = match validateBase
            (mkVerifier (verificationKey v) (mergeOptions (opts v) options))
            p w with
    | (Ok (Some e), w', evs) => (Ok (Some e, v), w', evs)
    | (Ok None, w', evs) =>
        let g := zkpverifier_VerifyGroth16 p (verificationKey v) in
        (Ok (match g with
             | Some e => Some (Wrapf "groth16 verification failed" e)
             | None => None
             end, v), w',
         evs ++ [EvVerifyGroth16 p (verificationKey v) g])
    | (Panic, w', evs) => (Panic, w', evs)
    end.
Proof.
  unfold VerifyProof, bind.
  destruct (validateBase _ p w) as [[[[e|]|] w'] evs]; simpl.
  - rewrite app_nil_r. reflexivity.
  - destruct (zkpverifier_VerifyGroth16 _ _); reflexivity.
  - reflexivity.
Qed.

(** A proof of the wrong shape ends the call at once. *)
Lemma VerifyProof_shape_error (v : Verifier) (p : ZKProof)
      (options : list VerifyOption) (w : World) (e : error) :
  validateShape p = Some e ->
  VerifyProof v p options w = (Ok (Some e, v), w, []).
Proof.
  intros Hs. rewrite VerifyProof_unfold, (validateBase_shape_error _ p w e Hs).
  reflexivity.
Qed.

(** C6. Whenever the validation of the signals reports a failure (a shape
    error, a report of field errors or a failure of the root verifier),
    [VerifyProof] returns that very error, and the call has not run the
    Groth16 pairing check: no event of the call is a pairing check. *)
Theorem VerifyProof_failure_skips_groth16
        (v : Verifier) (p : ZKProof) (options : list VerifyOption)
        (w w' : World) (e : error) (evs : list event) :
  validateBase (mkVerifier (verificationKey v) (mergeOptions (opts v) options))
               p w = (Ok (Some e), w', evs) ->
  VerifyProof v p options w = (Ok (Some e, v), w', evs)
  /\ Forall (fun ev => ~ isGroth16 ev) evs.
Proof.
  intros H. split.
  - rewrite VerifyProof_unfold, H. reflexivity.
  - pose proof (validateBase_no_groth16
                  (mkVerifier (verificationKey v) (mergeOptions (opts v) options))
                  p w) as Hq.
    rewrite H in Hq. exact Hq.
Qed.

(** Conversely, a call that ran the pairing check ran it once, as its
    last step, on the proof and the stored key, after a validation that
    reported nothing. *)
Lemma groth16_only_after_validation
      (v : Verifier) (p : ZKProof) (options : list VerifyOption)
      (w w' : World) (r : res (option error * Verifier)) (evs : list event) :
  VerifyProof v p options w = (r, w', evs) ->
  Exists isGroth16 evs ->
  exists evs0,
    validateBase (mkVerifier (verificationKey v) (mergeOptions (opts v) options))
                 p w = (Ok None, w', evs0)
    /\ Forall (fun ev => ~ isGroth16 ev) evs0
    /\ evs = evs0 ++ [EvVerifyGroth16 p (verificationKey v)
                        (zkpverifier_VerifyGroth16 p (verificationKey v))].
Proof.
  rewrite VerifyProof_unfold.
  pose proof (validateBase_no_groth16
                (mkVerifier (verificationKey v) (mergeOptions (opts v) options))
                p w) as Hq.
  destruct (validateBase _ p w) as [[[[e|]|] w0] evs0]; simpl in *;
    intros [= <- <- <-] Hex.
  - exfalso. apply Exists_exists in Hex as (ev & Hin & Hg).
    rewrite Forall_forall in Hq. exact (Hq ev Hin Hg).
  - exists evs0. auto.
  - exfalso. apply Exists_exists in Hex as (ev & Hin & Hg).
    rewrite Forall_forall in Hq. exact (Hq ev Hin Hg).
Qed.

(** C3. A proof whose container is absent, or whose signal vector is
    absent or has a length other than 21, gets a shape error: a report
    with entries under zk_proof/proof and zk_proof/pub_signals only.  The
    validation and the whole call then emit no event and leave the world
    as it was: no signal position is read, the root verifier and the
    pairing check are not called, the clock is not read.  The contents of
    the vector and the options play no part. *)
Theorem shape_error_short_circuits
        (v : Verifier) (p : ZKProof) (options : list VerifyOption) (w : World) :
  Proof p = None \/ PubSignals p = [] \/ List.length (PubSignals p) <> 21%nat ->
  exists m : gmap string err,
    validateBase v p w = (Ok (Some (ValErrors m)), w, [])
    /\ VerifyProof v p options w = (Ok (Some (ValErrors m), v), w, [])
    /\ m <> ∅
    /\ forall k, is_Some (m !! k) ->
                 k = "zk_proof/proof" \/ k = "zk_proof/pub_signals".
Proof.
  intros H.
  destruct (validateShape p) as [e|] eqn:Hs.
  - destruct (validateShape_Some p e Hs) as (m & -> & Hne & Hk).
    exists m. repeat split; try assumption.
    + apply validateBase_shape_error, Hs.
    + apply VerifyProof_shape_error, Hs.
  - exfalso. apply validateShape_None in Hs as [[pd Hp] Hl].
    destruct H as [H | [H | H]].
    + congruence.
    + rewrite H in Hl. discriminate.
    + contradiction.
Qed.

(** With a present container and 21 signals, an infrastructure failure of
    the root verifier is what [VerifyProof] returns, after reading the
    root signal alone. *)
Lemma VerifyProof_root_unreachable
      (v : Verifier) (p : ZKProof) (options : list VerifyOption) (w : World)
      (e : err) :
  is_Some (Proof p) -> List.length (PubSignals p) = 21%nat ->
  rootVerifier (mergeOptions (opts v) options) (signal (PubSignals p) IdStateRoot)
  = Some e ->
  errors_Is_ErrContractCall (Some e) = true ->
  VerifyProof v p options w
  = (Ok (Some (Leaf e), v), w,
     [EvReadSignal IdStateRoot;
      EvVerifyRoot (signal (PubSignals p) IdStateRoot) (Some e)]).
Proof.
  intros Hp Hl Hr He.
  rewrite VerifyProof_unfold, (validateBase_run _ p w Hp Hl). simpl.
  rewrite Hr, He. reflexivity.
Qed.

(** C2. For a proof with 21 signals: if during the call the root verifier
    returns an error [e] that is an infrastructure failure
    ([identity.ErrContractCall]), then [VerifyProof] returns [e] itself,
    not a report of field errors, whatever the other signals and options
    are.  The root that was verified is the identity-state-root signal,
    and neither another signal nor the pairing check was evaluated. *)
Theorem root_infrastructure_failure_propagates
        (v : Verifier) (p : ZKProof) (options : list VerifyOption)
        (w w' : World) (r : res (option error * Verifier))
        (evs : list event) (root : string) (e : err) :
  List.length (PubSignals p) = 21%nat ->
  VerifyProof v p options w = (r, w', evs) ->
  In (EvVerifyRoot root (Some e)) evs ->
  errors_Is_ErrContractCall (Some e) = true ->
  r = Ok (Some (Leaf e), v)
  /\ root = signal (PubSignals p) IdStateRoot
  /\ evs = [EvReadSignal IdStateRoot; EvVerifyRoot root (Some e)]
  /\ w' = w.
Proof.
  intros Hl Hrun Hin He.
  destruct (Proof p) as [pd|] eqn:Hp.
  - assert (Hp' : is_Some (Proof p)) by (rewrite Hp; eauto).
    rewrite VerifyProof_unfold, (validateBase_run _ p w Hp' Hl) in Hrun.
    simpl in Hrun.
    destruct (errors_Is_ErrContractCall (rootVerifier _ _)) eqn:Hcc;
      cbv iota in Hrun.
    + destruct (rootVerifier _ _) as [e'|] eqn:Hr; [|discriminate Hcc].
      simpl in Hrun. injection Hrun as <- <- <-. simpl in Hin.
      destruct Hin as [Hin | [Hin | []]]; [discriminate|].
      injection Hin as <- <-. auto.
    + exfalso.
      assert (Hno : forall evs0,
                 In (EvVerifyRoot root (Some e))
                    (identitiesReads
                       (signal (PubSignals p) IdentityCounterUpperBound) ++ evs0) ->
                 In (EvVerifyRoot root (Some e)) evs0).
      { intros evs0 H. apply in_app_or in H as [H|H]; [|exact H].
        unfold identitiesReads in H.
        destruct (strconv.ParseInt _); simpl in H;
          repeat (destruct H as [H|H]; [discriminate|]); destruct H. }
      destruct (val.Filter _); injection Hrun as <- <- <-; simpl in Hin;
        repeat (destruct Hin as [Hin|Hin];
                [first [ discriminate
                       | injection Hin as _ Hr; rewrite Hr, He in Hcc;
                         discriminate ]|]).
      * rewrite <- (app_nil_r (identitiesReads _)) in Hin.
        apply Hno in Hin. destruct Hin.
      * apply Hno in Hin. destruct Hin as [Hin|[]]. discriminate.
  - exfalso. destruct (validateShape p) as [e0|] eqn:Hs.
    + rewrite (VerifyProof_shape_error v p options w e0 Hs) in Hrun.
      injection Hrun as <- <- <-. exact Hin.
    + apply validateShape_None in Hs as [[pd Hpd] _]. congruence.
Qed.

(** *** The freshness pair *)

Lemma all_lookup_pair (v : Verifier) (rootErr : option err) (now now' : Time)
      (a b c d e f g k : string) :
  k = "pub_signals/timestamp_upper_bound"
  \/ k = "pub_signals/identity_counter_upper_bound" ->
  all v rootErr now now' a b c d e f g !! k = None.
Proof.
  intros [-> | ->]; unfold all;
    repeat rewrite lookup_insert_ne by done; apply lookup_empty.
Qed.

Lemma identities_lookup_other (v : Verifier) (c t k : string) :
  k <> "pub_signals/timestamp_upper_bound" ->
  k <> "pub_signals/identity_counter_upper_bound" ->
  identities v c t !! k = None.
Proof.
  intros H1 H2. unfold identities.
  destruct (strconv.ParseInt c); [destruct (cErr _ _); [|destruct (tErr _ _)]|];
    rewrite ?lookup_singleton_ne, ?lookup_empty by done; reflexivity.
Qed.

Lemma baseReport_lookup_pair (v : Verifier) (signals : list string)
      (rootErr : option err) (w : World) (k : string) :
  k = "pub_signals/timestamp_upper_bound"
  \/ k = "pub_signals/identity_counter_upper_bound" ->
  baseReport v signals rootErr w !! k
  = identities v (signal signals IdentityCounterUpperBound)
                 (signal signals TimestampUpperBound) !! k.
Proof.
  intros Hk. unfold baseReport. apply lookup_union_l, all_lookup_pair, Hk.
Qed.

Lemma baseReport_lookup_other (v : Verifier) (signals : list string)
      (rootErr : option err) (w : World) (k : string) :
  k <> "pub_signals/timestamp_upper_bound" ->
  k <> "pub_signals/identity_counter_upper_bound" ->
  baseReport v signals rootErr w !! k
  = all v rootErr (clock w (ticks w)) (clock w (S (ticks w)))
        (signal signals Nullifier) (signal signals Selector)
        (signal signals ExpirationDateLowerBound) (signal signals EventID)
        (signal signals BirthdateUpperBound) (signal signals Citizenship)
        (signal signals EventData) !! k.
Proof.
  intros H1 H2. unfold baseReport.
  apply lookup_union_r, identities_lookup_other; assumption.
Qed.

(** The count leg on a counter above a configured limit. *)
Lemma cErr_exceeds (v : Verifier) (counter : Z) :
  maxIdentitiesCount (opts v) <> -1 ->
  maxIdentitiesCount (opts v) < counter ->
  cErr v counter
  = Some (if counter =? 0 then ErrRequired
          else ErrMaxLessEqualThanRequired (maxIdentitiesCount (opts v))).
Proof.
  intros Hset Hlt. unfold cErr. simpl.
  destruct (Z.eqb_spec (maxIdentitiesCount (opts v)) (-1)) as [|_];
    [contradiction|]. simpl.
  destruct (counter =? 0); [reflexivity|].
  destruct (Z.leb_spec counter (maxIdentitiesCount (opts v))); [lia|reflexivity].
Qed.

(** The timestamp leg on a signal dated after a configured limit. *)
Lemma tErr_after (v : Verifier) (timestamp : string) (d : Time) :
  time.IsZero (maxIdentityCreationTimestamp (opts v)) = false ->
  parseDate timestamp = Some d ->
  time.After d (maxIdentityCreationTimestamp (opts v)) = true ->
  tErr v timestamp
  = Some (if (String.length timestamp =? 0)%nat then ErrRequired
          else ErrDateTooLate).
Proof.
  intros Hset Hd Hafter. unfold tErr, validateOnOptSet. simpl.
  rewrite Hset. simpl.
  destruct (String.length timestamp =? 0)%nat; [reflexivity|].
  rewrite Hd, Hafter. reflexivity.
Qed.

(** C1, as the code has it. With both limits set, a counter signal that
    parses to an integer above the count limit and a timestamp signal
    dated after the timestamp limit, [validateBase] reports the pair under
    pub_signals/timestamp_upper_bound alone: the report has the error of
    the timestamp leg there, and no entry under
    pub_signals/identity_counter_upper_bound. *)
Theorem both_legs_failing_report_the_timestamp
        (v : Verifier) (p : ZKProof) (w : World) (counter : Z) (d : Time) :
  is_Some (Proof p) -> List.length (PubSignals p) = 21%nat ->
  errors_Is_ErrContractCall
    (rootVerifier (opts v) (signal (PubSignals p) IdStateRoot)) = false ->
  maxIdentitiesCount (opts v) <> -1 ->
  time.IsZero (maxIdentityCreationTimestamp (opts v)) = false ->
  strconv.ParseInt (signal (PubSignals p) IdentityCounterUpperBound)
  = inl counter ->
  maxIdentitiesCount (opts v) < counter ->
  parseDate (signal (PubSignals p) TimestampUpperBound) = Some d ->
  time.After d (maxIdentityCreationTimestamp (opts v)) = true ->
  exists (m : gmap string err) (w' : World) (evs : list event),
    validateBase v p w = (Ok (Some (ValErrors m)), w', evs)
    /\ m !! "pub_signals/timestamp_upper_bound"
       = Some (if (String.length (signal (PubSignals p) TimestampUpperBound)
                   =? 0)%nat
               then ErrRequired else ErrDateTooLate)
    /\ m !! "pub_signals/identity_counter_upper_bound" = None.
Proof.
  intros Hp Hl Hcc Hc Ht Hparse Hlt Hd Hafter.
  rewrite (validateBase_run v p w Hp Hl). simpl. rewrite Hcc.
  set (rep := baseReport v (PubSignals p) _ w).
  assert (Hids : identities v (signal (PubSignals p) IdentityCounterUpperBound)
                   (signal (PubSignals p) TimestampUpperBound)
                 = {[ "pub_signals/timestamp_upper_bound" :=
                        tErr v (signal (PubSignals p) TimestampUpperBound) ]}).
  { unfold identities. rewrite Hparse, (cErr_exceeds v counter Hc Hlt).
    reflexivity. }
  assert (Hts : rep !! "pub_signals/timestamp_upper_bound"
                = Some (tErr v (signal (PubSignals p) TimestampUpperBound))).
  { unfold rep. rewrite baseReport_lookup_pair by auto.
    rewrite Hids. apply lookup_singleton_eq. }
  assert (Hcn : rep !! "pub_signals/identity_counter_upper_bound" = None).
  { unfold rep. rewrite baseReport_lookup_pair by auto.
    rewrite Hids. apply lookup_singleton_ne. done. }
  rewrite (tErr_after v _ d Ht Hd Hafter) in Hts.
  rewrite (Filter_entry rep _ _ Hts).
  do 3 eexists. split; [reflexivity|].
  rewrite !lookup_omap, Hts, Hcn. split; reflexivity.
Qed.

(** C10. With the count limit configured to 0 (not the -1 sentinel) and a
    counter signal that parses to 0, the count leg fails with the error of
    a required value that is missing, although 0 does not exceed the limit
    0; the pair is then decided by the timestamp leg alone. *)
Theorem zero_counter_fails_zero_limit
        (v : Verifier) (signals : list string) (w : World) (c ts : string) :
  maxIdentitiesCount (opts v) = 0 ->
  signals !! IdentityCounterUpperBound = Some c ->
  strconv.ParseInt c = inl 0 ->
  signals !! TimestampUpperBound = Some ts ->
  cErr v 0 = Some ErrRequired
  /\ 0 <= maxIdentitiesCount (opts v)
  /\ validateIdentitiesInputs v signals w
     = (Ok {[ "pub_signals/timestamp_upper_bound" := tErr v ts ]}, w,
        [EvReadSignal IdentityCounterUpperBound;
         EvReadSignal TimestampUpperBound]).
Proof.
  intros Hlim Hc Hparse Hts.
  assert (HcErr : cErr v 0 = Some ErrRequired).
  { unfold cErr. rewrite Hlim. reflexivity. }
  split; [exact HcErr|]. split; [lia|].
  rewrite validateIdentitiesInputs_run by (rewrite ?Hc, ?Hts; eauto).
  unfold identities, identitiesReads, signal. rewrite Hc, Hts. simpl.
  rewrite Hparse, HcErr. reflexivity.
Qed.

(** C9, as the code has it. When the counter signal of a well-shaped
    proof does not parse as a 64-bit decimal integer (and the root
    verifier has not failed as infrastructure), the parse error is an
    entry of the aggregated report of field errors, under
    pub_signals/identity_counter_upper_bound; every other entry of that
    report is the outcome of the corresponding field check, all of which
    were evaluated; only the timestamp signal is not read. *)
Theorem unparsable_counter_is_a_report_entry
        (v : Verifier) (p : ZKProof) (w : World) (e : err) :
  is_Some (Proof p) -> List.length (PubSignals p) = 21%nat ->
  errors_Is_ErrContractCall
    (rootVerifier (opts v) (signal (PubSignals p) IdStateRoot)) = false ->
  strconv.ParseInt (signal (PubSignals p) IdentityCounterUpperBound) = inr e ->
  exists m : gmap string err,
    validateBase v p w
    = (Ok (Some (ValErrors m)), mkWorld (clock w) (S (S (ticks w))),
       [EvReadSignal IdStateRoot;
        EvVerifyRoot (signal (PubSignals p) IdStateRoot)
          (rootVerifier (opts v) (signal (PubSignals p) IdStateRoot));
        EvReadSignal Nullifier; EvReadSignal Selector;
        EvReadSignal ExpirationDateLowerBound; EvReadSignal EventID;
        EvReadSignal BirthdateUpperBound; EvReadSignal Citizenship;
        EvReadSignal EventData; EvReadSignal IdentityCounterUpperBound])
    /\ m !! "pub_signals/identity_counter_upper_bound" = Some e
    /\ forall k, k <> "pub_signals/identity_counter_upper_bound" ->
         m !! k
         = all v (rootVerifier (opts v) (signal (PubSignals p) IdStateRoot))
               (clock w (ticks w)) (clock w (S (ticks w)))
               (signal (PubSignals p) Nullifier)
               (signal (PubSignals p) Selector)
               (signal (PubSignals p) ExpirationDateLowerBound)
               (signal (PubSignals p) EventID)
               (signal (PubSignals p) BirthdateUpperBound)
               (signal (PubSignals p) Citizenship)
               (signal (PubSignals p) EventData) !! k ≫= id.
Proof.
  intros Hp Hl Hcc Hparse.
  rewrite (validateBase_run v p w Hp Hl). simpl. rewrite Hcc.
  set (rep := baseReport v (PubSignals p) _ w).
  assert (Hids : identities v (signal (PubSignals p) IdentityCounterUpperBound)
                   (signal (PubSignals p) TimestampUpperBound)
                 = {[ "pub_signals/identity_counter_upper_bound" := Some e ]}).
  { unfold identities. rewrite Hparse. reflexivity. }
  assert (Hcn : rep !! "pub_signals/identity_counter_upper_bound"
                = Some (Some e)).
  { unfold rep. rewrite baseReport_lookup_pair by auto.
    rewrite Hids. apply lookup_singleton_eq. }
  rewrite (Filter_entry rep _ _ Hcn).
  eexists. split; [|split].
  - unfold baseReads, identitiesReads. rewrite Hparse. reflexivity.
  - rewrite lookup_omap, Hcn. reflexivity.
  - intros k Hk. rewrite lookup_omap. f_equal.
    destruct (decide (k = "pub_signals/timestamp_upper_bound")) as [->|Hk'].
    + unfold rep. rewrite baseReport_lookup_pair by auto.
      rewrite Hids, lookup_singleton_ne by done.
      symmetry. apply all_lookup_pair. auto.
    + apply baseReport_lookup_other; assumption.
Qed.

(** *** The correlation check *)

Lemma Validate_Required_In (x c : string) :
  val.Validate (val.VString x) [val.Required; val.In [val.VString c]]
  = if (String.length x =? 0)%nat then Some ErrRequired
    else if String.eqb c x then None else Some ErrInInvalid.
Proof.
  cbn -[String.eqb]. destruct (String.length x =? 0)%nat; [reflexivity|].
  cbn -[String.eqb]. destruct (String.eqb c x); reflexivity.
Qed.

(** C5, as the code has it. [VerifyExternalID] succeeds exactly when the
    configured correlation digest is set (not empty) and equal to the
    argument itself: the argument is compared as it is given, no digest is
    computed from it.  With the digest unset it fails for every argument. *)
Theorem VerifyExternalID_compares_verbatim (v : Verifier) (candidate : string) :
  (VerifyExternalID v candidate = None
   <-> externalID (opts v) <> "" /\ externalID (opts v) = candidate)
  /\ (externalID (opts v) = "" ->
      VerifyExternalID v candidate
      = Some (ValErrors {[ "external_id" := ErrRequired ]})).
Proof.
  unfold VerifyExternalID. rewrite Validate_Required_In. split.
  - rewrite Filter_None. split.
    + intros H. destruct (H "external_id") as [H1|H1];
        rewrite lookup_singleton_eq in H1; [discriminate|].
      injection H1 as H1.
      destruct (externalID (opts v)) as [|a x]; [discriminate|].
      split; [done|]. simpl in H1.
      destruct (String.eqb_spec candidate (String a x)); [congruence|].
      discriminate.
    + intros [Hne <-] k.
      destruct (decide (k = "external_id")) as [->|Hk].
      * right. rewrite lookup_singleton_eq. f_equal.
        destruct (externalID (opts v)) as [|a x]; [contradiction|].
        rewrite String.eqb_refl. reflexivity.
      * left. apply lookup_singleton_ne. congruence.
  - intros ->. reflexivity.
Qed.

(** *** Citizenships *)

Lemma existsb_same_elements {T} (f : T -> bool) (l k : list T) :
  (forall x, List.In x l <-> List.In x k) -> existsb f l = existsb f k.
Proof.
  intros H. apply eq_true_iff_eq. rewrite !existsb_exists.
  split; intros (x & Hx & Hf); exists x; split; try assumption; apply H, Hx.
Qed.

(** The citizenship check sees the configured codes as a set. *)
Lemma citizenship_check_set (cs1 cs2 : list string) (x : val.value) :
  (forall c, List.In c cs1 <-> List.In c cs2) ->
  validateOnOptSet x (val.VSlice (map val.VString cs1))
                   (val.In (map val.VString cs1))
  = validateOnOptSet x (val.VSlice (map val.VString cs2))
                     (val.In (map val.VString cs2)).
Proof.
  intros H. unfold validateOnOptSet. simpl.
  assert (He : (List.length (map val.VString cs1) =? 0)%nat
               = (List.length (map val.VString cs2) =? 0)%nat).
  { destruct cs1 as [|a cs1], cs2 as [|b cs2]; try reflexivity; exfalso.
    - apply (H b). left. reflexivity.
    - apply (H a). left. reflexivity. }
  rewrite He.
  destruct (List.length (map val.VString cs2) =? 0)%nat; [reflexivity|].
  simpl. destruct (val.Indirect x) as [y isNil].
  destruct (isNil || val.IsEmpty y); [reflexivity|].
  rewrite (existsb_same_elements _ (map val.VString cs1) (map val.VString cs2));
    [reflexivity|].
  intros z. rewrite !in_map_iff.
  split; intros (c & <- & Hc); exists c; split; try reflexivity; apply H, Hc.
Qed.

Lemma validateBase_citizenships_set
      (key : list Z) (o : VerifyOptions) (cs1 cs2 : list string)
      (p : ZKProof) (w : World) :
  (forall c, List.In c cs1 <-> List.In c cs2) ->
  validateBase (mkVerifier key (WithCitizenships cs1 o)) p w
  = validateBase (mkVerifier key (WithCitizenships cs2 o)) p w.
Proof.
  intros H. destruct (validateShape p) as [e|] eqn:Hs.
  - rewrite !(validateBase_shape_error _ p w e Hs). reflexivity.
  - apply validateShape_None in Hs as [Hp Hl].
    rewrite !(validateBase_run _ p w Hp Hl). simpl.
    destruct (errors_Is_ErrContractCall _); [reflexivity|].
    do 3 f_equal. unfold baseReport. f_equal.
    unfold all. simpl.
    rewrite (citizenship_check_set cs1 cs2 _ H). reflexivity.
Qed.

(** C7. Two lists of citizenship codes with the same elements, whatever
    their order and however often a code is repeated, give the same
    outcome: a call whose last override is [WithCitizenships] of the one
    list returns, emits and leaves behind exactly what the call with the
    other list does, for every proof and every world. *)
Theorem citizenships_have_set_semantics
        (cs1 cs2 : list string) (v : Verifier) (p : ZKProof)
        (options : list VerifyOption) (w : World) :
  (forall c, List.In c cs1 <-> List.In c cs2) ->
  VerifyProof v p (options ++ [WithCitizenships cs1]) w
  = VerifyProof v p (options ++ [WithCitizenships cs2]) w.
Proof.
  intros H. rewrite !VerifyProof_unfold. unfold mergeOptions.
  rewrite !fold_left_app. simpl.
  rewrite (validateBase_citizenships_set _ _ cs1 cs2 p w H). reflexivity.
Qed.

(** *** Merging the options *)

Lemma mergeOptions_snoc (o : VerifyOptions) (xs : list VerifyOption)
      (x : VerifyOption) :
  mergeOptions o (xs ++ [x]) = x (mergeOptions o xs).
Proof. unfold mergeOptions. rewrite fold_left_app. reflexivity. Qed.





(** Each mutator writes its own field and no other. *)
Lemma WithEventID_writes (i : string) (o : VerifyOptions) :
  eventID (WithEventID i o) = i
  /\ externalID (WithEventID i o) = externalID o
  /\ age (WithEventID i o) = age o
  /\ citizenships (WithEventID i o) = citizenships o
  /\ eventDataRule (WithEventID i o) = eventDataRule o
  /\ maxIdentitiesCount (WithEventID i o) = maxIdentitiesCount o
  /\ maxIdentityCreationTimestamp (WithEventID i o)
     = maxIdentityCreationTimestamp o
  /\ rootVerifier (WithEventID i o) = rootVerifier o
  /\ verificationKeyFile (WithEventID i o) = verificationKeyFile o.
Proof. repeat split. Qed.

Lemma WithAgeAbove_writes (n : Z) (o : VerifyOptions) :
  age (WithAgeAbove n o) = n
  /\ externalID (WithAgeAbove n o) = externalID o
  /\ eventID (WithAgeAbove n o) = eventID o
  /\ citizenships (WithAgeAbove n o) = citizenships o
  /\ eventDataRule (WithAgeAbove n o) = eventDataRule o
  /\ maxIdentitiesCount (WithAgeAbove n o) = maxIdentitiesCount o
  /\ maxIdentityCreationTimestamp (WithAgeAbove n o)
     = maxIdentityCreationTimestamp o
  /\ rootVerifier (WithAgeAbove n o) = rootVerifier o
  /\ verificationKeyFile (WithAgeAbove n o) = verificationKeyFile o.
Proof. repeat split. Qed.

Lemma WithCitizenships_writes (cs : list string) (o : VerifyOptions) :
  citizenships (WithCitizenships cs o) = map val.VString cs
  /\ externalID (WithCitizenships cs o) = externalID o
  /\ eventID (WithCitizenships cs o) = eventID o
  /\ age (WithCitizenships cs o) = age o
  /\ eventDataRule (WithCitizenships cs o) = eventDataRule o
  /\ maxIdentitiesCount (WithCitizenships cs o) = maxIdentitiesCount o
  /\ maxIdentityCreationTimestamp (WithCitizenships cs o)
     = maxIdentityCreationTimestamp o
  /\ rootVerifier (WithCitizenships cs o) = rootVerifier o
  /\ verificationKeyFile (WithCitizenships cs o) = verificationKeyFile o.
Proof. repeat split. Qed.

Lemma WithExternalID_writes (i : string) (o : VerifyOptions) :
  externalID (WithExternalID i o)
  = hex.EncodeToString (sha256.Sum256 (bytes_of_string i))
  /\ eventID (WithExternalID i o) = eventID o
  /\ age (WithExternalID i o) = age o
  /\ citizenships (WithExternalID i o) = citizenships o
  /\ eventDataRule (WithExternalID i o) = eventDataRule o
  /\ maxIdentitiesCount (WithExternalID i o) = maxIdentitiesCount o
  /\ maxIdentityCreationTimestamp (WithExternalID i o)
     = maxIdentityCreationTimestamp o
  /\ rootVerifier (WithExternalID i o) = rootVerifier o
  /\ verificationKeyFile (WithExternalID i o) = verificationKeyFile o.
Proof. repeat split. Qed.

(** *** The minimum age *)

(** [AddDate] by a number of years sends two instants to the same instant
    only if they are equal or form the leap-day pair. *)
Lemma AddDate_collision (t u : Time) (years : Z) :
  time.AddDate t years = time.AddDate u years ->
  t = u \/ leapDayPair t u years.
Proof.
  destruct t as [y m d c], u as [y' m' d' c'].
  unfold time.AddDate, leapDayPair. simpl.
  destruct ((m =? 2) && (d =? 29) && negb (time.isLeap (y + years))) eqn:E1;
    destruct ((m' =? 2) && (d' =? 29) && negb (time.isLeap (y' + years))) eqn:E2;
    intros H; injection H; clear H; intros;
    try (apply andb_true_iff in E1 as [E1 L1];
         apply andb_true_iff in E1 as [M1 D1];
         apply Z.eqb_eq in M1; apply Z.eqb_eq in D1;
         apply negb_true_iff in L1);
    try (apply andb_true_iff in E2 as [E2 L2];
         apply andb_true_iff in E2 as [M2 D2];
         apply Z.eqb_eq in M2; apply Z.eqb_eq in D2;
         apply negb_true_iff in L2);
    assert (y = y') by lia; subst.
  - left. reflexivity.
  - right. repeat split; auto.
  - right. repeat split; auto.
  - left. reflexivity.
Qed.

(** C4, as the code has it. For a verifier configured with the minimum
    age [n]: the mutator stores the number of years; at each call the
    bound of the birth-date check is the first reading of the clock during
    that call, moved back by [n] calendar years, and the entry of the
    report under pub_signals/birth_date_upper_bound is the outcome of the
    check against that bound.  Two instants give different bounds unless
    they form the leap-day pair (February 29 and March 1 of one year at
    the same time of day, the target year having no February 29). *)
Theorem birthdate_bound_is_resolved_at_each_call
        (n : Z) (key : list Z) (o : VerifyOptions) (p : ZKProof) :
  is_Some (Proof p) -> List.length (PubSignals p) = 21%nat ->
  errors_Is_ErrContractCall
    (rootVerifier o (signal (PubSignals p) IdStateRoot)) = false ->
  let v := mkVerifier key (WithAgeAbove n o) in
  let check (now : Time) :=
    validateOnOptSet (val.VString (signal (PubSignals p) BirthdateUpperBound))
      (val.VInt n) (beforeDate (time.AddDate now (- n))) in
  age (opts v) = n
  /\ (forall w : World,
         exists report : gmap string (option err),
           validateBase v p w
           = (Ok (val.Filter report), mkWorld (clock w) (S (S (ticks w))),
              baseReads (PubSignals p)
                (rootVerifier o (signal (PubSignals p) IdStateRoot)))
           /\ report !! "pub_signals/birth_date_upper_bound"
              = Some (check (clock w (ticks w)))
           /\ forall e, check (clock w (ticks w)) = Some e ->
                exists m : gmap string err,
                  val.Filter report = Some (ValErrors m)
                  /\ m !! "pub_signals/birth_date_upper_bound" = Some e)
  /\ (forall t u : Time,
         t <> u -> ~ leapDayPair t u (- n) ->
         allowedBirthDate v t <> allowedBirthDate v u).
Proof.
  intros Hp Hl Hcc v check. split; [reflexivity|]. split.
  - intros w. eexists. split; [|split].
    + rewrite (validateBase_run v p w Hp Hl). simpl. rewrite Hcc. reflexivity.
    + rewrite baseReport_lookup_other by done. unfold all.
      repeat rewrite lookup_insert_ne by done. apply lookup_insert_eq.
    + intros e He.
      assert (Hk : baseReport v (PubSignals p)
                     (rootVerifier o (signal (PubSignals p) IdStateRoot)) w
                   !! "pub_signals/birth_date_upper_bound" = Some (Some e)).
      { rewrite baseReport_lookup_other by done. unfold all.
        repeat rewrite lookup_insert_ne by done.
        rewrite lookup_insert_eq. f_equal. exact He. }
      eexists. split; [apply (Filter_entry _ _ _ Hk)|].
      rewrite lookup_omap, Hk. reflexivity.
  - intros t u Hne Hpair Heq. unfold allowedBirthDate in Heq. simpl in Heq.
    destruct (AddDate_collision t u (- n) Heq); contradiction.
Qed.

End Verifier.

(** ** The properties at concrete inputs *)

Module Concrete.

Import Fixtures.

(** A well-formed proof with no optional check configured passes the
    validation and proceeds to the pairing check. *)
Example end_to_end_accepts :
  VerifyProof parseDate decodeInt groth16_ok (verifier (options root_ok))
              (proof "3" "20200101") [] world
  = (Ok (None, verifier (options root_ok)), mkWorld (clock world) 2%nat,
     baseReads (signals "3" "20200101") None
     ++ [EvVerifyGroth16 (proof "3" "20200101") [1; 2; 3] None]).
Proof. vm_compute. reflexivity. Qed.

(** A rejection by the pairing check is wrapped, not reported by field. *)
Example end_to_end_pairing_rejects :
  (VerifyProof parseDate decodeInt groth16_bad (verifier (options root_ok))
               (proof "3" "20200101") [] world).1.1
  = Ok (Some (Wrapf "groth16 verification failed" (ErrOther "invalid proof")),
        verifier (options root_ok)).
Proof. vm_compute. reflexivity. Qed.

(** A root that the verifier rejects is a field error. *)
Example invalid_root_is_a_field_error :
  (VerifyProof parseDate decodeInt groth16_ok (verifier (options root_invalid))
               (proof "3" "20200101") [] world).1.1
  = Ok (Some (ValErrors {[ "pub_signals/id_state_hash" := ErrOther "invalid root" ]}),
        verifier (options root_invalid)).
Proof. vm_compute. reflexivity. Qed.

(** The count leg holds, the timestamp leg fails: the pair is satisfied. *)
Example count_leg_satisfies_the_pair :
  (validateBase parseDate decodeInt
     (verifier (optionsBounded 5 (time.mkTime 2021 1 1 0) root_ok))
     (proof "3" "20220101") world).1.1 = Ok None.
Proof. vm_compute. reflexivity. Qed.

(** The count leg fails, the timestamp leg holds: the pair is satisfied. *)
Example timestamp_leg_satisfies_the_pair :
  (validateBase parseDate decodeInt
     (verifier (optionsBounded 5 (time.mkTime 2021 1 1 0) root_ok))
     (proof "10" "20200101") world).1.1 = Ok None.
Proof. vm_compute. reflexivity. Qed.

(** The birth date 14 June 2002 against the minimum age 22: on 14 June
    2024 the bound is 14 June 2002 and the check passes; the same
    configuration a day earlier compares against 13 June 2002 and fails. *)
Example age_boundary_is_inclusive :
  (VerifyProof parseDate decodeInt groth16_ok (verifier (options root_ok))
               (proof "3" "20200101") [WithAgeAbove 22] world).1.1
  = Ok (None, verifier (options root_ok)).
Proof. vm_compute. reflexivity. Qed.

Example age_a_day_earlier_fails :
  (VerifyProof parseDate decodeInt groth16_ok (verifier (options root_ok))
               (proof "3" "20200101") [WithAgeAbove 22]
               (worldAt (time.mkTime 2024 6 13 noon))).1.1
  = Ok (Some (ValErrors {[ "pub_signals/birth_date_upper_bound" := ErrDateTooLate ]}),
        verifier (options root_ok)).
Proof. vm_compute. reflexivity. Qed.

(** The package's tests: the stored digest accepts the digest, and
    rejects the raw identifier. *)
Example digest_is_accepted :
  VerifyExternalID (verifier (WithExternalID validAddress (options root_ok)))
                   hashedExternalID = None.
Proof. vm_compute. reflexivity. Qed.

(** C1, counterexample. Limits 5 and 1 January 2021, counter 10 and
    timestamp 1 January 2022: both legs fail, and the report has one
    entry, under pub_signals/timestamp_upper_bound; nothing is reported
    under pub_signals/identity_counter_upper_bound. *)
Lemma both_legs_failing_report_one_error :
  strconv.ParseInt "10" = inl 10
  /\ 5 < 10
  /\ time.After (time.mkTime 2022 1 1 0) (time.mkTime 2021 1 1 0) = true
  /\ (validateBase parseDate decodeInt
        (verifier (optionsBounded 5 (time.mkTime 2021 1 1 0) root_ok))
        (proof "10" "20220101") world).1.1
     = Ok (Some (ValErrors
                   {[ "pub_signals/timestamp_upper_bound" := ErrDateTooLate ]})).
Proof. repeat split; vm_compute; reflexivity. Qed.

(** C4, counterexample. With the minimum age 1, a call at noon on 29
    February 2024 and a call at noon on 1 March 2024 compare against the
    same bound, noon on 1 March 2023. *)
Lemma leap_day_calls_share_the_bound :
  feb29 <> mar1
  /\ allowedBirthDate (verifier (WithAgeAbove 1 (options root_ok))) feb29
     = time.mkTime 2023 3 1 noon
  /\ allowedBirthDate (verifier (WithAgeAbove 1 (options root_ok))) mar1
     = time.mkTime 2023 3 1 noon.
Proof. repeat split; try reflexivity. discriminate. Qed.

(** C5, counterexample. The verifier configured with an identifier
    rejects that identifier as a candidate: its stored digest is set and
    is the SHA-256 hex digest of the candidate, yet the check fails. *)
Lemma raw_identifier_is_rejected :
  externalID (WithExternalID validAddress (options root_ok))
  = hex.EncodeToString (sha256.Sum256 (bytes_of_string validAddress))
  /\ externalID (WithExternalID validAddress (options root_ok)) <> ""
  /\ VerifyExternalID (verifier (WithExternalID validAddress (options root_ok)))
                      validAddress
     = Some (ValErrors {[ "external_id" := ErrInInvalid ]}).
Proof.
  split; [reflexivity|]. split; [vm_compute; discriminate|].
  vm_compute. reflexivity.
Qed.

(** C9, counterexample. With the counter signal abc and a citizenship
    that is not allowed, one report carries both the parse error and the
    citizenship error: the parse error is an entry of the aggregated
    report, and the other field checks were evaluated. *)
Lemma unparsable_counter_is_aggregated :
  strconv.ParseInt "abc" = inr (NumError "ParseInt" "abc" ErrSyntax)
  /\ (validateBase parseDate decodeInt
        (verifier (WithCitizenships ["USA"] (options root_ok)))
        (proof "abc" "20200101") world).1.1
     = Ok (Some (ValErrors
                   (<[ "pub_signals/citizenship" := ErrInInvalid ]>
                      {[ "pub_signals/identity_counter_upper_bound" :=
                           NumError "ParseInt" "abc" ErrSyntax ]}))).
Proof. split; vm_compute; reflexivity. Qed.

(** *** The general theorems at these inputs *)

Lemma both_legs_failing_witness :
  exists (m : gmap string err) (w' : World) (evs : list event),
    validateBase parseDate decodeInt
      (verifier (optionsBounded 5 (time.mkTime 2021 1 1 0) root_ok))
      (proof "10" "20220101") world
    = (Ok (Some (ValErrors m)), w', evs)
    /\ m !! "pub_signals/timestamp_upper_bound" = Some ErrDateTooLate
    /\ m !! "pub_signals/identity_counter_upper_bound" = None.
Proof.
  apply (both_legs_failing_report_the_timestamp parseDate decodeInt
           (verifier (optionsBounded 5 (time.mkTime 2021 1 1 0) root_ok))
           (proof "10" "20220101") world 10 (time.mkTime 2022 1 1 0)).
  - eexists. reflexivity.
  - reflexivity.
  - reflexivity.
  - discriminate.
  - reflexivity.
  - reflexivity.
  - reflexivity.
  - reflexivity.
  - reflexivity.
Defined.

Lemma root_infrastructure_failure_witness :
  (VerifyProof parseDate decodeInt groth16_ok
     (verifier (options root_unreachable)) (proof "3" "20200101") [] world).1.1
  = Ok (Some (Leaf (ErrContractCall "failed to call the contract")),
        verifier (options root_unreachable)).
Proof.
  destruct (VerifyProof parseDate decodeInt groth16_ok
              (verifier (options root_unreachable)) (proof "3" "20200101")
              [] world) as [[r w'] evs] eqn:Hrun.
  pose proof Hrun as Hc. vm_compute in Hc. injection Hc as _ _ Hevs.
  simpl.
  apply (root_infrastructure_failure_propagates parseDate decodeInt groth16_ok
           (verifier (options root_unreachable)) (proof "3" "20200101") []
           world w' r evs
           "12951550518411690859840573908810811336996269038828192037883707959753719498363"
           (ErrContractCall "failed to call the contract")).
  - reflexivity.
  - exact Hrun.
  - rewrite <- Hevs. right. left. reflexivity.
  - reflexivity.
Defined.

Lemma shape_error_witness :
  exists m : gmap string err,
    validateBase parseDate decodeInt (verifier (options root_unreachable))
                 shortProof world
    = (Ok (Some (ValErrors m)), world, [])
    /\ VerifyProof parseDate decodeInt groth16_ok
         (verifier (options root_unreachable)) shortProof [WithAgeAbove 18] world
       = (Ok (Some (ValErrors m), verifier (options root_unreachable)), world, [])
    /\ m <> ∅
    /\ forall k, is_Some (m !! k) ->
                 k = "zk_proof/proof" \/ k = "zk_proof/pub_signals".
Proof.
  apply (shape_error_short_circuits parseDate decodeInt groth16_ok).
  right. right. simpl. discriminate.
Defined.

Lemma birthdate_bound_witness :
  allowedBirthDate (verifier (WithAgeAbove 22 (options root_ok)))
                   (time.mkTime 2024 6 14 noon)
  <> allowedBirthDate (verifier (WithAgeAbove 22 (options root_ok)))
                      (time.mkTime 2024 6 13 noon).
Proof.
  destruct (birthdate_bound_is_resolved_at_each_call parseDate decodeInt
              22 [1; 2; 3] (options root_ok) (proof "3" "20200101"))
    as (_ & _ & H).
  - eexists. reflexivity.
  - reflexivity.
  - reflexivity.
  - apply H.
    + discriminate.
    + intros (_ & _ & _ & [(Hm & _) | (Hm & _)]); discriminate Hm.
Defined.

Lemma failure_skips_groth16_witness :
  VerifyProof parseDate decodeInt groth16_bad
    (verifier (options root_invalid)) (proof "3" "20200101") [] world
  = (Ok (Some (ValErrors {[ "pub_signals/id_state_hash" := ErrOther "invalid root" ]}),
         verifier (options root_invalid)),
     mkWorld (clock world) 2%nat,
     baseReads (signals "3" "20200101") (Some (ErrOther "invalid root")))
  /\ Forall (fun ev => ~ isGroth16 ev)
            (baseReads (signals "3" "20200101") (Some (ErrOther "invalid root"))).
Proof.
  apply (VerifyProof_failure_skips_groth16 parseDate decodeInt groth16_bad).
  vm_compute. reflexivity.
Defined.

Lemma citizenships_set_witness :
  VerifyProof parseDate decodeInt groth16_ok (verifier (options root_ok))
    (proof "3" "20200101") ([WithAgeAbove 18] ++ [WithCitizenships ["UKR"; "USA"; "UKR"]])
    world
  = VerifyProof parseDate decodeInt groth16_ok (verifier (options root_ok))
      (proof "3" "20200101") ([WithAgeAbove 18] ++ [WithCitizenships ["USA"; "UKR"]])
      world.
Proof.
  apply (citizenships_have_set_semantics parseDate decodeInt groth16_ok).
  intros c. simpl. tauto.
Defined.

Lemma unparsable_counter_witness :
  exists m : gmap string err,
    (validateBase parseDate decodeInt (verifier (options root_ok))
                  (proof "abc" "20200101") world).1.1
    = Ok (Some (ValErrors m))
    /\ m !! "pub_signals/identity_counter_upper_bound"
       = Some (NumError "ParseInt" "abc" ErrSyntax).
Proof.
  destruct (unparsable_counter_is_a_report_entry parseDate decodeInt
              (verifier (options root_ok)) (proof "abc" "20200101") world
              (NumError "ParseInt" "abc" ErrSyntax))
    as (m & Hrun & Hm & _).
  - eexists. reflexivity.
  - reflexivity.
  - reflexivity.
  - reflexivity.
  - exists m. rewrite Hrun. split; [reflexivity | exact Hm].
Defined.

Lemma zero_counter_witness :
  cErr (verifier (optionsBounded 0 time.zero root_ok)) 0 = Some ErrRequired
  /\ 0 <= maxIdentitiesCount (opts (verifier (optionsBounded 0 time.zero root_ok)))
  /\ validateIdentitiesInputs parseDate
       (verifier (optionsBounded 0 time.zero root_ok))
       (signals "0" "20220101") world
     = (Ok {[ "pub_signals/timestamp_upper_bound" :=
                tErr parseDate (verifier (optionsBounded 0 time.zero root_ok))
                     "20220101" ]},
        world,
        [EvReadSignal IdentityCounterUpperBound;
         EvReadSignal TimestampUpperBound]).
Proof.
  apply (zero_counter_fails_zero_limit parseDate
           (verifier (optionsBounded 0 time.zero root_ok))
           (signals "0" "20220101") world "0" "20220101");
    reflexivity.
Defined.

End Concrete.


(** ** Further properties of the verifier *)

Section VerifierMore.

Variable parseDate : string -> option Time.
Variable decodeInt : string -> string.
Variable zkpverifier_VerifyGroth16 : ZKProof -> list Z -> option err.

(** *** The freshness pair *)

(** X1. The count leg holds exactly when the limit is the sentinel -1, or
    the counter is not zero and does not exceed the limit: with a limit
    other than -1 the counter 0 is always refused. *)
Theorem count_leg_holds_iff (v : Verifier) (counter : Z) :
  cErr v counter = None
  <-> maxIdentitiesCount (opts v) = -1
      \/ (counter <> 0 /\ counter <= maxIdentitiesCount (opts v)).
Proof.
  unfold cErr. simpl.
  destruct (Z.eqb_spec (maxIdentitiesCount (opts v)) (-1)) as [Hm|Hm]; simpl.
  - split; auto.
  - destruct (Z.eqb_spec counter 0) as [Hc|Hc]; simpl.
    + split; [discriminate|]. intros [?|[? _]]; contradiction.
    + destruct (Z.leb_spec counter (maxIdentitiesCount (opts v))).
      * split; auto.
      * split; [discriminate|]. intros [?|[_ ?]]; [contradiction|lia].
Qed.

(** X2. Once the counter signal parses, the pair is reported only when
    both legs fail, and then under the timestamp alone: after the nil
    entries are dropped, what [validateIdentitiesInputs] returns is empty
    as soon as one leg holds.  Both signals are read, nothing else is. *)
Theorem pair_is_reported_only_when_both_legs_fail
        (v : Verifier) (signals : list string) (w : World)
        (c ts : string) (n : Z) :
  signals !! IdentityCounterUpperBound = Some c ->
  signals !! TimestampUpperBound = Some ts ->
  strconv.ParseInt c = inl n ->
  exists m : gmap string (option err),
    validateIdentitiesInputs parseDate v signals w
    = (Ok m, w, [EvReadSignal IdentityCounterUpperBound;
                 EvReadSignal TimestampUpperBound])
    /\ omap id m
       = match cErr v n, tErr parseDate v ts with
         | Some _, Some e => {[ "pub_signals/timestamp_upper_bound" := e ]}
         | _, _ => ∅
         end.
Proof.
  intros Hc Hts Hparse.
  rewrite validateIdentitiesInputs_run by (rewrite ?Hc, ?Hts; eauto).
  unfold identities, identitiesReads, signal. rewrite Hc, Hts. simpl.
  rewrite Hparse. eexists. split; [reflexivity|].
  destruct (cErr v n); destruct (tErr parseDate v ts).
  - apply omap_singleton_Some. reflexivity.
  - apply omap_singleton_None. reflexivity.
  - apply omap_singleton_None. reflexivity.
  - apply omap_empty.
Qed.

(** X3. On its own, [validateIdentitiesInputs] panics exactly on the
    vectors that have no position 16; [validateBase] calls it only after
    the shape check. *)
Theorem validateIdentitiesInputs_panics_iff
        (v : Verifier) (signals : list string) (w : World) :
  (validateIdentitiesInputs parseDate v signals w).1.1 = Panic
  <-> (List.length signals <= IdentityCounterUpperBound)%nat.
Proof.
  split.
  - intros H.
    destruct (le_lt_dec (List.length signals) IdentityCounterUpperBound)
      as [Hle|Hlt]; [exact Hle|exfalso].
    rewrite validateIdentitiesInputs_run in H.
    + discriminate.
    + apply lookup_lt_is_Some. exact Hlt.
    + apply lookup_lt_is_Some. unfold IdentityCounterUpperBound in Hlt.
      unfold TimestampUpperBound. lia.
  - intros Hle. apply lookup_ge_None in Hle.
    unfold validateIdentitiesInputs, bind, index. rewrite Hle. reflexivity.
Qed.

(** *** The counter signal *)

(** A decimal digit, and the number that digits denote after [acc]. *)
Definition isDigit (c : ascii) : Prop :=
  48 <= Z.of_N (N_of_ascii c) <= 57.

Definition digitsValue (cs : list ascii) (acc : Z) : Z :=
  fold_left (fun a c => a * 10 + (Z.of_N (N_of_ascii c) - 48)) cs acc.

Lemma digitsValue_ge (cs : list ascii) (acc : Z) :
  Forall isDigit cs -> 0 <= acc -> acc <= digitsValue cs acc.
Proof.
  intros H. revert acc. induction H as [|c cs Hc _ IH]; intros acc Hacc.
  - simpl. lia.
  - simpl. unfold isDigit in Hc.
    transitivity (acc * 10 + (Z.of_N (N_of_ascii c) - 48)); [lia|].
    apply IH. lia.
Qed.

Lemma parseUintLoop_digits (cs : list ascii) (n : Z) :
  Forall isDigit cs -> 0 <= n <= strconv.maxUint64 ->
  strconv.parseUintLoop cs n
  = if digitsValue cs n <=? strconv.maxUint64
    then inl (digitsValue cs n) else inr ErrRange.
Proof.
  intros H. revert n. induction H as [|c cs Hc Hcs IH]; intros n Hn.
  - simpl. destruct (Z.leb_spec n strconv.maxUint64); [reflexivity|lia].
  - unfold isDigit in Hc.
    pose proof (digitsValue_ge cs (n * 10 + (Z.of_N (N_of_ascii c) - 48)) Hcs)
      as Hge.
    change (digitsValue (c :: cs) n)
      with (digitsValue cs (n * 10 + (Z.of_N (N_of_ascii c) - 48))).
    set (d := Z.of_N (N_of_ascii c) - 48) in *.
    assert (Hmax : strconv.maxUint64 = 18446744073709551615) by reflexivity.
    cbn [strconv.parseUintLoop].
    fold d.
    destruct (Z.leb_spec 48 (Z.of_N (N_of_ascii c))); [|lia].
    destruct (Z.leb_spec (Z.of_N (N_of_ascii c)) 57); [|lia].
    cbn [andb].
    change (strconv.maxUint64 / 10 + 1) with 1844674407370955162.
    change (2 ^ 64) with 18446744073709551616.
    destruct (Z.leb_spec 1844674407370955162 n).
    + destruct (Z.leb_spec (digitsValue cs (n * 10 + d)) strconv.maxUint64);
        [lia|reflexivity].
    + rewrite (Z.mod_small (n * 10)) by lia.
      destruct (Z.le_gt_cases 18446744073709551616 (n * 10 + d)) as [Hov|Hok].
      * assert (Hm : (n * 10 + d) mod 18446744073709551616
                     = n * 10 + d - 18446744073709551616).
        { symmetry. apply (Z.mod_unique _ _ 1); lia. }
        rewrite Hm.
        destruct (Z.ltb_spec (n * 10 + d - 18446744073709551616) (n * 10));
          [|lia].
        cbn [orb].
        destruct (Z.leb_spec (digitsValue cs (n * 10 + d)) strconv.maxUint64);
          [lia|reflexivity].
      * rewrite (Z.mod_small (n * 10 + d)) by lia.
        destruct (Z.ltb_spec (n * 10 + d) (n * 10)); [lia|].
        destruct (Z.ltb_spec strconv.maxUint64 (n * 10 + d)); [lia|].
        cbn [orb]. apply IH. lia.
Qed.

Lemma parseUintLoop_bounds (cs : list ascii) (n r : Z) :
  0 <= n < 2 ^ 64 -> strconv.parseUintLoop cs n = inl r -> 0 <= r < 2 ^ 64.
Proof.
  revert n. induction cs as [|c cs IH]; intros n Hn.
  - simpl. intros [= <-]. exact Hn.
  - cbn [strconv.parseUintLoop].
    destruct ((48 <=? _) && (_ <=? 57)); [|discriminate].
    destruct (_ <=? n); [discriminate|].
    destruct (_ || _); [discriminate|].
    apply IH. apply Z.mod_pos_bound. reflexivity.
Qed.

(** A counter that parses is a 64-bit integer. *)
Lemma ParseInt_int64 (s : string) (n : Z) :
  strconv.ParseInt s = inl n -> - 2 ^ 63 <= n < 2 ^ 63.
Proof.
  unfold strconv.ParseInt. destruct s as [|c rest]; [discriminate|].
  cbv zeta.
  destruct (strconv.ParseUint _) as [un|k] eqn:Hun; [|discriminate].
  assert (Hb : 0 <= un < 2 ^ 64).
  { unfold strconv.ParseUint in Hun.
    destruct (list_ascii_of_string _) as [|a l]; [discriminate|].
    apply (parseUintLoop_bounds (a :: l) 0 un);
      [split; [lia|reflexivity]|exact Hun]. }
  destruct (Z.of_N (N_of_ascii c) =? 45); cbn [negb andb].
  - destruct (Z.ltb_spec (2 ^ 63) un); [discriminate|].
    intros [= <-]. lia.
  - destruct (Z.leb_spec (2 ^ 63) un); [discriminate|].
    intros [= <-]. lia.
Qed.

Lemma ParseInt_digits (c : string) :
  c <> "" -> Forall isDigit (list_ascii_of_string c) ->
  strconv.ParseInt c
  = if digitsValue (list_ascii_of_string c) 0 <? 2 ^ 63
    then inl (digitsValue (list_ascii_of_string c) 0)
    else inr (NumError "ParseInt" c ErrRange).
Proof.
  intros Hne Hd. destruct c as [|a rest]; [contradiction|].
  pose proof (digitsValue_ge _ 0 Hd (Z.le_refl 0)) as Hge.
  unfold strconv.ParseInt. cbv zeta.
  assert (Ha : isDigit a) by (inversion Hd; assumption).
  unfold isDigit in Ha.
  destruct (Z.eqb_spec (Z.of_N (N_of_ascii a)) 43); [lia|].
  destruct (Z.eqb_spec (Z.of_N (N_of_ascii a)) 45); [lia|].
  cbn [orb negb andb]. unfold strconv.ParseUint.
  set (cs := list_ascii_of_string (String a rest)) in *.
  assert (Hcs : cs <> []) by discriminate.
  destruct cs as [|a' l] eqn:Ecs; [contradiction|].
  assert (Hmax : strconv.maxUint64 = 18446744073709551615) by reflexivity.
  rewrite (parseUintLoop_digits (a' :: l) 0 Hd) by lia.
  change (2 ^ 63) with 9223372036854775808.
  destruct (Z.leb_spec (digitsValue (a' :: l) 0) strconv.maxUint64).
  - destruct (Z.leb_spec 9223372036854775808 (digitsValue (a' :: l) 0));
      destruct (Z.ltb_spec (digitsValue (a' :: l) 0) 9223372036854775808);
      try lia; reflexivity.
  - destruct (Z.ltb_spec (digitsValue (a' :: l) 0) 9223372036854775808);
      [lia|reflexivity].
Qed.

(** X4. A counter signal made of decimal digits is parsed to the number it
    denotes when that number is below 2^63; from 2^63 on it is reported as
    a range error under pub_signals/identity_counter_upper_bound, whatever
    the limit is (also when the count is unbounded), and the timestamp
    signal is not read. *)
Theorem decimal_counter_is_parsed_or_out_of_range
        (v : Verifier) (signals : list string) (w : World) (c : string) :
  signals !! IdentityCounterUpperBound = Some c ->
  c <> "" -> Forall isDigit (list_ascii_of_string c) ->
  (digitsValue (list_ascii_of_string c) 0 < 2 ^ 63 ->
   strconv.ParseInt c = inl (digitsValue (list_ascii_of_string c) 0))
  /\ (2 ^ 63 <= digitsValue (list_ascii_of_string c) 0 ->
      validateIdentitiesInputs parseDate v signals w
      = (Ok {[ "pub_signals/identity_counter_upper_bound" :=
                 Some (NumError "ParseInt" c ErrRange) ]},
         w, [EvReadSignal IdentityCounterUpperBound])).
Proof.
  intros Hc Hne Hd. pose proof (ParseInt_digits c Hne Hd) as Hp. split.
  - intros Hlt.
    destruct (Z.ltb_spec (digitsValue (list_ascii_of_string c) 0) (2 ^ 63));
      [exact Hp|lia].
  - intros Hge.
    destruct (Z.ltb_spec (digitsValue (list_ascii_of_string c) 0) (2 ^ 63));
      [lia|].
    unfold validateIdentitiesInputs, bind, index. rewrite Hc. simpl.
    rewrite Hp. reflexivity.
Qed.

(** *** What validation returns *)

(** The errors of [validateBase] are reports, or the infrastructure failure
    of the root verifier. *)
Lemma validateBase_error_kinds (v : Verifier) (p : ZKProof) (w w' : World)
      (e : error) (evs : list event) :
  validateBase parseDate decodeInt v p w = (Ok (Some e), w', evs) ->
  (exists m, e = ValErrors m)
  \/ (exists x, e = Leaf x /\ errors_Is_ErrContractCall (Some x) = true).
Proof.
  destruct (validateShape p) as [e0|] eqn:Hs.
  - rewrite (validateBase_shape_error _ _ v p w e0 Hs). intros [= <- _ _].
    destruct (validateShape_Some p e0 Hs) as (m & -> & _). eauto.
  - apply validateShape_None in Hs as [Hp Hl].
    rewrite (validateBase_run _ _ v p w Hp Hl). cbv zeta.
    destruct (errors_Is_ErrContractCall _) eqn:Hcc.
    + destruct (rootVerifier _ _) as [x|]; [|discriminate Hcc].
      simpl. intros [= <- _ _]. eauto.
    + intros [= Hf _ _]. apply Filter_Some in Hf as [-> _]. eauto.
Qed.

(** X5. A root that the root verifier rejects, other than by an
    infrastructure failure, is a field error: [VerifyProof] returns a
    report whose entry under pub_signals/id_state_hash is the verifier's
    error, and the call does not run the pairing check. *)
Theorem root_rejection_is_a_field_error
        (v : Verifier) (p : ZKProof) (options : list VerifyOption) (w : World)
        (e : err) :
  is_Some (Proof p) -> List.length (PubSignals p) = 21%nat ->
  rootVerifier (mergeOptions (opts v) options)
               (signal (PubSignals p) IdStateRoot) = Some e ->
  errors_Is_ErrContractCall (Some e) = false ->
  exists (m : gmap string err) (evs : list event),
    VerifyProof parseDate decodeInt zkpverifier_VerifyGroth16 v p options w
    = (Ok (Some (ValErrors m), v), mkWorld (clock w) (S (S (ticks w))), evs)
    /\ m !! "pub_signals/id_state_hash" = Some e
    /\ Forall (fun ev => ~ isGroth16 ev) evs.
Proof.
  intros Hp Hl Hr He.
  set (v2 := mkVerifier (verificationKey v) (mergeOptions (opts v) options)).
  pose proof (validateBase_no_groth16 parseDate decodeInt v2 p w) as Hq.
  rewrite VerifyProof_unfold. fold v2.
  rewrite (validateBase_run _ _ v2 p w Hp Hl) in *. cbv zeta in *.
  unfold v2 in *. simpl opts in *. rewrite Hr, He in *.
  assert (Hk : baseReport parseDate decodeInt
                 (mkVerifier (verificationKey v) (mergeOptions (opts v) options))
                 (PubSignals p) (Some e) w
               !! "pub_signals/id_state_hash" = Some (Some e)).
  { rewrite baseReport_lookup_other by done. unfold all.
    repeat rewrite lookup_insert_ne by done. apply lookup_insert_eq. }
  rewrite (Filter_entry _ _ _ Hk) in *.
  do 2 eexists. split; [reflexivity|]. split.
  - rewrite lookup_omap, Hk. reflexivity.
  - exact Hq.
Qed.

(** X6. A proof of the right shape whose nullifier is empty or whose
    selector is not 39 is rejected with a report, whatever the options:
    the entry under pub_signals/nullifier is the missing-value error exactly
    when the nullifier is empty, and the entry under pub_signals/selector is
    the missing-value error for an empty selector and the invalid-value
    error for any other selector than 39. *)
Theorem nullifier_and_selector_are_always_checked
        (v : Verifier) (p : ZKProof) (w : World) :
  is_Some (Proof p) -> List.length (PubSignals p) = 21%nat ->
  errors_Is_ErrContractCall
    (rootVerifier (opts v) (signal (PubSignals p) IdStateRoot)) = false ->
  signal (PubSignals p) Nullifier = ""
  \/ signal (PubSignals p) Selector <> "39" ->
  exists (m : gmap string err) (evs : list event),
    validateBase parseDate decodeInt v p w
    = (Ok (Some (ValErrors m)), mkWorld (clock w) (S (S (ticks w))), evs)
    /\ m !! "pub_signals/nullifier"
       = (if String.eqb (signal (PubSignals p) Nullifier) ""
          then Some ErrRequired else None)
    /\ m !! "pub_signals/selector"
       = (if String.eqb (signal (PubSignals p) Selector) ""
          then Some ErrRequired
          else if String.eqb (signal (PubSignals p) Selector) "39"
               then None else Some ErrInInvalid).
Proof.
  intros Hp Hl Hcc Hbad.
  rewrite (validateBase_run _ _ v p w Hp Hl). cbv zeta. rewrite Hcc.
  set (rep := baseReport parseDate decodeInt v (PubSignals p) _ w).
  assert (Hn : rep !! "pub_signals/nullifier"
               = Some (if String.eqb (signal (PubSignals p) Nullifier) ""
                       then Some ErrRequired else None)).
  { unfold rep. rewrite baseReport_lookup_other by done. unfold all.
    rewrite lookup_insert_eq. f_equal.
    destruct (signal (PubSignals p) Nullifier); reflexivity. }
  assert (Hsel : rep !! "pub_signals/selector"
               = Some (if String.eqb (signal (PubSignals p) Selector) ""
                       then Some ErrRequired
                       else if String.eqb (signal (PubSignals p) Selector) "39"
                            then None else Some ErrInInvalid)).
  { unfold rep. rewrite baseReport_lookup_other by done. unfold all.
    rewrite lookup_insert_ne by done. rewrite lookup_insert_eq. f_equal.
    rewrite Validate_Required_In. unfold proofSelectorValue.
    destruct (signal (PubSignals p) Selector) as [|a x]; [reflexivity|].
    cbn [String.length Nat.eqb].
    rewrite (String.eqb_sym "39" (String a x)). reflexivity. }
  assert (Hsome : exists k x, rep !! k = Some (Some x)).
  { destruct Hbad as [Hb|Hb].
    - exists "pub_signals/nullifier", ErrRequired. rewrite Hn, Hb. reflexivity.
    - destruct (signal (PubSignals p) Selector) as [|a x] eqn:Es.
      + exists "pub_signals/selector", ErrRequired. rewrite Hsel. reflexivity.
      + exists "pub_signals/selector", ErrInInvalid. rewrite Hsel.
        destruct (String.eqb_spec (String a x) "39"); [contradiction|].
        reflexivity. }
  destruct Hsome as (k & x & Hk).
  rewrite (Filter_entry rep k x Hk).
  do 2 eexists. split; [reflexivity|].
  rewrite !lookup_omap, Hn, Hsel. split; reflexivity.
Qed.

(** The entries of a filtered-away report are all nil. *)
Lemma Filter_None_entry (es : gmap string (option err)) (k : string)
      (x : option err) :
  val.Filter es = None -> es !! k = Some x -> x = None.
Proof.
  intros Hf Hk. destruct (proj1 (Filter_None es) Hf k) as [H|H];
    rewrite Hk in H; congruence.
Qed.

(** X7. A proof that [validateBase] accepts has passed every required
    check: its container is present, it has 21 signals, its nullifier and
    its expiration bound are not empty, its selector is 39, the root
    verifier accepted its identity-state root, its counter signal parses to
    a 64-bit integer, and one of the two legs of the freshness pair holds.
    The call has read the clock twice. *)
Theorem accepted_proof_passed_the_required_checks
        (v : Verifier) (p : ZKProof) (w w' : World) (evs : list event) :
  validateBase parseDate decodeInt v p w = (Ok None, w', evs) ->
  is_Some (Proof p)
  /\ List.length (PubSignals p) = 21%nat
  /\ signal (PubSignals p) Nullifier <> ""
  /\ signal (PubSignals p) Selector = "39"
  /\ signal (PubSignals p) ExpirationDateLowerBound <> ""
  /\ rootVerifier (opts v) (signal (PubSignals p) IdStateRoot) = None
  /\ (exists n,
         strconv.ParseInt (signal (PubSignals p) IdentityCounterUpperBound)
         = inl n
         /\ - 2 ^ 63 <= n < 2 ^ 63
         /\ (cErr v n = None
             \/ tErr parseDate v (signal (PubSignals p) TimestampUpperBound)
                = None))
  /\ w' = mkWorld (clock w) (S (S (ticks w))).
Proof.
  intros Hrun.
  destruct (validateShape p) as [e0|] eqn:Hs.
  { rewrite (validateBase_shape_error _ _ v p w e0 Hs) in Hrun. discriminate. }
  apply validateShape_None in Hs as [Hp Hl].
  rewrite (validateBase_run _ _ v p w Hp Hl) in Hrun. cbv zeta in Hrun.
  destruct (errors_Is_ErrContractCall _) eqn:Hcc.
  { destruct (rootVerifier _ _); [discriminate Hrun|discriminate Hcc]. }
  injection Hrun as Hf <- _.
  set (rep := baseReport parseDate decodeInt v (PubSignals p) _ w) in Hf.
  assert (Hall : forall k x,
             k <> "pub_signals/timestamp_upper_bound" ->
             k <> "pub_signals/identity_counter_upper_bound" ->
             all parseDate decodeInt v
               (rootVerifier (opts v) (signal (PubSignals p) IdStateRoot))
               (clock w (ticks w)) (clock w (S (ticks w)))
               (signal (PubSignals p) Nullifier)
               (signal (PubSignals p) Selector)
               (signal (PubSignals p) ExpirationDateLowerBound)
               (signal (PubSignals p) EventID)
               (signal (PubSignals p) BirthdateUpperBound)
               (signal (PubSignals p) Citizenship)
               (signal (PubSignals p) EventData) !! k = Some x ->
             x = None).
  { intros k x H1 H2 Hk. apply (Filter_None_entry rep k x Hf).
    unfold rep. rewrite baseReport_lookup_other by assumption. exact Hk. }
  repeat split; try assumption.
  - intros Hn.
    specialize (Hall "pub_signals/nullifier" (Some ErrRequired)).
    assert (Some ErrRequired = None); [|discriminate].
    apply Hall; [done|done|]. unfold all. rewrite lookup_insert_eq, Hn.
    reflexivity.
  - specialize (Hall "pub_signals/selector").
    destruct (String.eqb_spec "39" (signal (PubSignals p) Selector)) as [|Hne];
      [congruence|exfalso].
    assert (Some (if (String.length (signal (PubSignals p) Selector) =? 0)%nat
                  then ErrRequired else ErrInInvalid) = None); [|discriminate].
    apply Hall; [done|done|]. unfold all.
    rewrite lookup_insert_ne by done. rewrite lookup_insert_eq.
    rewrite Validate_Required_In. unfold proofSelectorValue.
    destruct (String.length _ =? 0)%nat; [reflexivity|].
    destruct (String.eqb_spec "39" (signal (PubSignals p) Selector));
      [contradiction|reflexivity].
  - intros Hn.
    specialize (Hall "pub_signals/expiration_date_lower_bound" (Some ErrRequired)).
    assert (Some ErrRequired = None); [|discriminate].
    apply Hall; [done|done|]. unfold all.
    repeat rewrite lookup_insert_ne by done. rewrite lookup_insert_eq, Hn.
    reflexivity.
  - apply (Hall "pub_signals/id_state_hash"); [done|done|]. unfold all.
    repeat rewrite lookup_insert_ne by done. apply lookup_insert_eq.
  - assert (Hids : forall k x,
               identities parseDate v
                 (signal (PubSignals p) IdentityCounterUpperBound)
                 (signal (PubSignals p) TimestampUpperBound) !! k = Some x ->
               x = None).
    { intros k x Hk. apply (Filter_None_entry rep k x Hf). unfold rep, baseReport.
      apply lookup_union_Some_l. exact Hk. }
    unfold identities in Hids.
    destruct (strconv.ParseInt _) as [n|e] eqn:Hparse.
    + exists n. split; [reflexivity|]. split; [exact (ParseInt_int64 _ n Hparse)|].
      destruct (cErr v n); [|auto]. right.
      apply (Hids "pub_signals/timestamp_upper_bound"). apply lookup_singleton_eq.
    + exfalso.
      specialize (Hids "pub_signals/identity_counter_upper_bound" (Some e)
                    (lookup_singleton_eq _ _)).
      discriminate.
Qed.

(** X8. [VerifyProof] returns nil exactly when the validation with the
    merged options reports nothing and the pairing check accepts the proof
    with the stored key; it returns a wrapped pairing error exactly when
    the validation reports nothing and the pairing check fails, and the
    wrapped error is then the one of the pairing check. *)
Theorem VerifyProof_verdict
        (v : Verifier) (p : ZKProof) (options : list VerifyOption) (w : World) :
  ((VerifyProof parseDate decodeInt zkpverifier_VerifyGroth16 v p options w).1.1
   = Ok (None, v)
   <-> (validateBase parseDate decodeInt
          (mkVerifier (verificationKey v) (mergeOptions (opts v) options))
          p w).1.1 = Ok None
       /\ zkpverifier_VerifyGroth16 p (verificationKey v) = None)
  /\ (forall (prefix : string) (e : err),
         (VerifyProof parseDate decodeInt zkpverifier_VerifyGroth16
                      v p options w).1.1
         = Ok (Some (Wrapf prefix e), v)
         <-> (validateBase parseDate decodeInt
                (mkVerifier (verificationKey v) (mergeOptions (opts v) options))
                p w).1.1 = Ok None
             /\ zkpverifier_VerifyGroth16 p (verificationKey v) = Some e
             /\ prefix = "groth16 verification failed").
Proof.
  rewrite VerifyProof_unfold.
  pose proof (validateBase_error_kinds
                (mkVerifier (verificationKey v) (mergeOptions (opts v) options))
                p w) as Hk.
  destruct (validateBase _ _ _ p w) as [[[[e0|]|] w0] evs0]; simpl.
  - specialize (Hk w0 e0 evs0 eq_refl). split.
    + split; [discriminate|]. intros [? _]. discriminate.
    + intros prefix e. split.
      * intros [= ->]. destruct Hk as [[m Hm]|(x & Hx & _)]; discriminate.
      * intros [? _]. discriminate.
  - clear Hk. destruct (zkpverifier_VerifyGroth16 p (verificationKey v)) as [g|].
    + split.
      * split; [discriminate|]. intros [_ ?]. discriminate.
      * intros prefix e. split.
        -- intros [= <- <-]. auto.
        -- intros (_ & [= <-] & ->). reflexivity.
    + split.
      * split; auto.
      * intros prefix e. split; [discriminate|]. intros (_ & ? & _).
        discriminate.
  - split.
    + split; [discriminate|]. intros [? _]. discriminate.
    + intros prefix e. split; [discriminate|]. intros [? _]. discriminate.
Qed.

(** *** The configured bindings *)

(** Every entry of the map [all] of an accepted proof is nil. *)
Lemma accepted_all_nil (v : Verifier) (p : ZKProof) (w w' : World)
      (evs : list event) (k : string) (x : option err) :
  validateBase parseDate decodeInt v p w = (Ok None, w', evs) ->
  all parseDate decodeInt v
    (rootVerifier (opts v) (signal (PubSignals p) IdStateRoot))
    (clock w (ticks w)) (clock w (S (ticks w)))
    (signal (PubSignals p) Nullifier) (signal (PubSignals p) Selector)
    (signal (PubSignals p) ExpirationDateLowerBound)
    (signal (PubSignals p) EventID) (signal (PubSignals p) BirthdateUpperBound)
    (signal (PubSignals p) Citizenship) (signal (PubSignals p) EventData)
  !! k = Some x ->
  x = None.
Proof.
  intros Hrun Hk.
  destruct (validateShape p) as [e0|] eqn:Hs.
  { rewrite (validateBase_shape_error _ _ v p w e0 Hs) in Hrun. discriminate. }
  apply validateShape_None in Hs as [Hp Hl].
  rewrite (validateBase_run _ _ v p w Hp Hl) in Hrun. cbv zeta in Hrun.
  destruct (errors_Is_ErrContractCall _) eqn:Hcc.
  { destruct (rootVerifier _ _); [discriminate Hrun|discriminate Hcc]. }
  injection Hrun as Hf _ _.
  apply (Filter_None_entry _ k x Hf).
  destruct (decide (k = "pub_signals/timestamp_upper_bound")) as [->|H1].
  { rewrite all_lookup_pair in Hk by auto. discriminate. }
  destruct (decide (k = "pub_signals/identity_counter_upper_bound")) as [->|H2].
  { rewrite all_lookup_pair in Hk by auto. discriminate. }
  rewrite baseReport_lookup_other by assumption. exact Hk.
Qed.

(** A conditional check that passes on a set option has required the
    value and applied the rule. *)
Lemma validateOnOptSet_passes (value opt : val.value) (rule : val.Rule) :
  val.IsEmpty opt = false ->
  validateOnOptSet value opt rule = None ->
  val.Rule_Validate val.Required value = None
  /\ val.Rule_Validate rule value = None.
Proof.
  intros He. unfold validateOnOptSet. cbn [val.Validate val.Rule_Validate].
  rewrite He. cbn [negb].
  destruct (val.Indirect value) as [x isNil].
  destruct (isNil || val.IsEmpty x); [discriminate|].
  destruct (val.Rule_Validate rule value); [discriminate|]. auto.
Qed.

(** X9. What an accepted proof is bound to.  If an event id is configured,
    the event-id signal is equal to it; if citizenship codes are configured,
    the code decoded from the citizenship signal is one of them; if a rule
    for the event data is configured, the event-data signal is not empty
    and the rule accepts it. *)
Theorem accepted_proof_matches_the_configuration
        (v : Verifier) (p : ZKProof) (w w' : World) (evs : list event) :
  validateBase parseDate decodeInt v p w = (Ok None, w', evs) ->
  (eventID (opts v) <> "" ->
   signal (PubSignals p) EventID = eventID (opts v))
  /\ (forall codes : list string,
         citizenships (opts v) = map val.VString codes -> codes <> [] ->
         List.In (decodeInt (signal (PubSignals p) Citizenship)) codes)
  /\ (forall f,
         eventDataRule (opts v) = Some f ->
         signal (PubSignals p) EventData <> ""
         /\ f (val.VString (signal (PubSignals p) EventData)) = None).
Proof.
  intros Hrun. split; [|split].
  - intros Hset.
    assert (Hc : validateOnOptSet
                   (val.VString (signal (PubSignals p) EventID))
                   (val.VString (eventID (opts v)))
                   (val.In [val.VString (eventID (opts v))]) = None).
    { apply (accepted_all_nil v p w w' evs "pub_signals/event_id" _ Hrun).
      unfold all. repeat rewrite lookup_insert_ne by done.
      apply lookup_insert_eq. }
    apply validateOnOptSet_passes in Hc as [Hreq Hin].
    + cbn -[String.eqb] in Hreq, Hin.
      destruct (String.length (signal (PubSignals p) EventID) =? 0)%nat;
        [discriminate|].
      cbn -[String.eqb] in Hin.
      destruct (String.eqb_spec (eventID (opts v))
                                (signal (PubSignals p) EventID));
        [congruence|discriminate].
    + simpl. destruct (eventID (opts v)); [contradiction|reflexivity].
  - intros codes Hcodes Hne.
    assert (Hc : validateOnOptSet
                   (val.VString (decodeInt (signal (PubSignals p) Citizenship)))
                   (val.VSlice (citizenships (opts v)))
                   (val.In (citizenships (opts v))) = None).
    { apply (accepted_all_nil v p w w' evs "pub_signals/citizenship" _ Hrun).
      unfold all. repeat rewrite lookup_insert_ne by done.
      apply lookup_insert_eq. }
    rewrite Hcodes in Hc.
    apply validateOnOptSet_passes in Hc as [Hreq Hin].
    + cbn -[String.eqb existsb] in Hreq, Hin.
      destruct (String.length _ =? 0)%nat; [discriminate|].
      cbn -[String.eqb existsb] in Hin.
      destruct (existsb _ _) eqn:Hex; [|discriminate].
      apply existsb_exists in Hex as (x & Hx & Heq).
      apply in_map_iff in Hx as (c & <- & Hc).
      cbn -[String.eqb] in Heq. apply String.eqb_eq in Heq. subst. exact Hc.
    + simpl. destruct codes; [contradiction|reflexivity].
  - intros f Hf.
    assert (Hc : validateOnOptSet
                   (val.VString (signal (PubSignals p) EventData))
                   (ruleValue (eventDataRule (opts v)))
                   (ruleOf (eventDataRule (opts v))) = None).
    { apply (accepted_all_nil v p w w' evs "pub_signals/event_data" _ Hrun).
      unfold all. repeat rewrite lookup_insert_ne by done.
      apply lookup_insert_eq. }
    rewrite Hf in Hc.
    apply validateOnOptSet_passes in Hc as [Hreq Hin]; [|reflexivity].
    cbn in Hreq, Hin. split; [|exact Hin].
    intros Hempty. rewrite Hempty in Hreq. discriminate.
Qed.

End VerifierMore.

(** ** The correlation digest *)

Lemma Sum256_length (data : list Z) : List.length (sha256.Sum256 data) = 32%nat.
Proof. unfold sha256.Sum256. cbv zeta. rewrite !length_app. reflexivity. Qed.

Lemma EncodeToString_length (src : list Z) :
  String.length (hex.EncodeToString src) = (2 * List.length src)%nat.
Proof.
  induction src as [|b src IH]; [reflexivity|].
  cbn [hex.EncodeToString String.length List.length]. rewrite IH. lia.
Qed.

Lemma get_In (s : string) (i : nat) (c : ascii) :
  String.get i s = Some c -> List.In c (list_ascii_of_string s).
Proof.
  revert i. induction s as [|a s IH]; intros i; [discriminate|].
  destruct i as [|i]; simpl.
  - intros [= ->]. left. reflexivity.
  - intros H. right. exact (IH i H).
Qed.

Lemma digit_in_hextable (n : Z) :
  List.In (hex.digit n) (list_ascii_of_string hex.hextable).
Proof.
  unfold hex.digit. destruct (String.get _ _) as [c|] eqn:H.
  - exact (get_In _ _ _ H).
  - left. reflexivity.
Qed.

Lemma EncodeToString_hex (src : list Z) :
  Forall (fun c => List.In c (list_ascii_of_string hex.hextable))
         (list_ascii_of_string (hex.EncodeToString src)).
Proof.
  induction src as [|b src IH]; [constructor|].
  cbn [hex.EncodeToString list_ascii_of_string].
  constructor; [apply digit_in_hextable|].
  constructor; [apply digit_in_hextable|]. exact IH.
Qed.

Lemma VerifyExternalID_None (v : Verifier) (candidate : string) :
  VerifyExternalID v candidate = None
  <-> externalID (opts v) <> "" /\ externalID (opts v) = candidate.
Proof.
  unfold VerifyExternalID. rewrite Validate_Required_In, Filter_None. split.
  - intros H. destruct (H "external_id") as [H1|H1];
      rewrite lookup_singleton_eq in H1; [discriminate|].
    injection H1 as H1.
    destruct (externalID (opts v)) as [|a x]; [discriminate|].
    split; [done|]. cbn [String.length Nat.eqb] in H1.
    destruct (String.eqb_spec candidate (String a x)); [congruence|discriminate].
  - intros [Hne <-] k.
    destruct (decide (k = "external_id")) as [->|Hk].
    + right. rewrite lookup_singleton_eq. f_equal.
      destruct (externalID (opts v)) as [|a x]; [contradiction|].
      rewrite String.eqb_refl. reflexivity.
    + left. apply lookup_singleton_ne. congruence.
Qed.

(** X10. After [SetExternalID] with an identifier, [VerifyExternalID]
    accepts one candidate only, the hex-encoded SHA-256 digest of that
    identifier.  [SetExternalID] leaves the key and the other options as
    they are, and a second call replaces the digest of the first. *)
Theorem SetExternalID_then_VerifyExternalID
        (v : Verifier) (identifier other candidate : string) :
  (VerifyExternalID (SetExternalID v identifier) candidate = None
   <-> candidate
       = hex.EncodeToString (sha256.Sum256 (bytes_of_string identifier)))
  /\ verificationKey (SetExternalID v identifier) = verificationKey v
  /\ opts (SetExternalID v identifier) = WithExternalID identifier (opts v)
  /\ SetExternalID (SetExternalID v other) identifier
     = SetExternalID v identifier.
Proof.
  split; [|repeat split].
  rewrite VerifyExternalID_None. cbn [SetExternalID opts WithExternalID externalID].
  split.
  - intros [_ H]. symmetry. exact H.
  - intros ->. split; [|reflexivity].
    intros H. apply (f_equal String.length) in H.
    rewrite EncodeToString_length, Sum256_length in H. discriminate.
Qed.

(** X11. The digest that [WithExternalID] stores is 64 characters long, all
    of them lower-case hexadecimal digits; a verifier configured with it
    therefore rejects every candidate of another length, in particular a raw
    identifier that is not 64 characters long. *)
Theorem stored_digest_is_64_hex_digits
        (identifier : string) (o : VerifyOptions) :
  String.length (externalID (WithExternalID identifier o)) = 64%nat
  /\ Forall (fun c => List.In c (list_ascii_of_string "0123456789abcdef"))
            (list_ascii_of_string (externalID (WithExternalID identifier o)))
  /\ forall (key : list Z) (candidate : string),
       String.length candidate <> 64%nat ->
       VerifyExternalID (mkVerifier key (WithExternalID identifier o)) candidate
       <> None.
Proof.
  assert (Hlen : String.length (externalID (WithExternalID identifier o))
                 = 64%nat).
  { cbn [WithExternalID externalID].
    rewrite EncodeToString_length, Sum256_length. reflexivity. }
  split; [exact Hlen|]. split.
  - cbn [WithExternalID externalID]. apply EncodeToString_hex.
  - intros key candidate Hc H. apply VerifyExternalID_None in H as [_ H].
    cbn [opts] in H. rewrite <- H in Hc. contradiction.
Qed.


(** ** The constructor *)

Section Constructor.

(** [os.ReadFile], the quoting of the verb q, and the root verifier of the
    zero structure (nil in Go; the constructor does not call it). *)
Variable os_ReadFile : string -> list Z + err.
Variable strconv_Quote : string -> string.
Variable nilRootVerifier : string -> option err.

Definition ErrVerificationKeyRequired : err :=
  ErrOther "verification key is required".

(** The zero value of [VerifyOptions]. *)
Definition zeroOptions : VerifyOptions :=
  mkVerifyOptions "" 0 [] "" None 0 time.zero nilRootVerifier "".

(** [NewPassportVerifier]: the verifier, or the error. *)
Definition NewPassportVerifier (verificationKey' : list Z)
           (options : list VerifyOption) : option Verifier * option error :=
  let verifier := mkVerifier verificationKey' (mergeOptions zeroOptions options) in
  let file := verificationKeyFile (opts verifier) in
  if String.eqb file "" then
    if (List.length verificationKey' =? 0)%nat
    then (None, Some (Leaf ErrVerificationKeyRequired))
    else (Some verifier, None)
  else
    match os_ReadFile file with
    | inr e =>
        (None,
         Some (Wrapf (String.append "failed to read verification key from file "
                                    (strconv_Quote file)) e))
    | inl key => (Some (mkVerifier key (opts verifier)), None)
    end.

(** X12. [NewPassportVerifier] returns a verifier or an error, never both
    and never neither, and a verifier it returns stores the merged options.
    Without a key file the passed key is stored, and it is refused exactly
    when it is empty.  With a key file the passed key plays no part: the
    key is the content of the file, and an empty file gives a verifier with
    an empty key. *)
Theorem NewPassportVerifier_key_source
        (key : list Z) (options : list VerifyOption) :
  let o := mergeOptions zeroOptions options in
  ((exists v, NewPassportVerifier key options = (Some v, None) /\ opts v = o)
   \/ (exists e, NewPassportVerifier key options = (None, Some e)))
  /\ (verificationKeyFile o = "" ->
      (key = [] ->
       NewPassportVerifier key options
       = (None, Some (Leaf ErrVerificationKeyRequired)))
      /\ (key <> [] ->
          NewPassportVerifier key options = (Some (mkVerifier key o), None)))
  /\ (verificationKeyFile o <> "" ->
      (forall key', NewPassportVerifier key options
                    = NewPassportVerifier key' options)
      /\ (forall content,
             os_ReadFile (verificationKeyFile o) = inl content ->
             NewPassportVerifier key options
             = (Some (mkVerifier content o), None))
      /\ (forall e,
             os_ReadFile (verificationKeyFile o) = inr e ->
             NewPassportVerifier key options
             = (None,
                Some (Wrapf (String.append
                               "failed to read verification key from file "
                               (strconv_Quote (verificationKeyFile o))) e)))).
Proof.
  intros o. unfold NewPassportVerifier. cbn [opts]. fold o.
  destruct (String.eqb_spec (verificationKeyFile o) "") as [Hf|Hf].
  - split; [|split].
    + destruct key; simpl; eauto.
    + intros _. split.
      * intros ->. reflexivity.
      * intros Hk. destruct key; [contradiction|reflexivity].
    + intros H. contradiction.
  - split; [|split].
    + destruct (os_ReadFile _); eauto.
    + intros H. contradiction.
    + intros _. split; [|split].
      * intros key'. reflexivity.
      * intros content ->. reflexivity.
      * intros e ->. reflexivity.
Qed.

End Constructor.

(** ** The further properties at concrete inputs *)

Module ConcreteMore.

Import Fixtures.

(** The proof of the fixtures with an empty nullifier. *)
Definition anonymousProof : ZKProof :=
  mkZKProof (Some proofData) (<[ 0%nat := "" ]> (signals "3" "20200101")).

(** Options that bind the event id and the citizenship of the fixtures. *)
Definition boundOptions : VerifyOptions :=
  WithCitizenships ["USA"; "UKR"]
    (WithEventID
       "304358862882731539112827930982999386691702727710421481944329166126417129570"
       (options root_ok)).

Lemma pair_witness :
  exists m : gmap string (option err),
    validateIdentitiesInputs parseDate
      (verifier (optionsBounded 5 (time.mkTime 2021 1 1 0) root_ok))
      (signals "3" "20220101") world
    = (Ok m, world, [EvReadSignal IdentityCounterUpperBound;
                     EvReadSignal TimestampUpperBound])
    /\ omap id m = ∅.
Proof.
  apply (pair_is_reported_only_when_both_legs_fail parseDate
           (verifier (optionsBounded 5 (time.mkTime 2021 1 1 0) root_ok))
           (signals "3" "20220101") world "3" "20220101" 3);
    reflexivity.
Defined.

Lemma decimal_counter_witness :
  validateIdentitiesInputs parseDate (verifier (options root_ok))
    (signals "9223372036854775808" "20220101") world
  = (Ok {[ "pub_signals/identity_counter_upper_bound" :=
             Some (NumError "ParseInt" "9223372036854775808" ErrRange) ]},
     world, [EvReadSignal IdentityCounterUpperBound]).
Proof.
  apply (decimal_counter_is_parsed_or_out_of_range parseDate
           (verifier (options root_ok))
           (signals "9223372036854775808" "20220101") world
           "9223372036854775808").
  - reflexivity.
  - discriminate.
  - repeat constructor; discriminate.
  - vm_compute. discriminate.
Defined.

Lemma root_rejection_witness :
  exists (m : gmap string err) (evs : list event),
    VerifyProof parseDate decodeInt groth16_ok
      (verifier (options root_ok)) (proof "3" "20200101")
      [fun o => optionsBounded (-1) time.zero root_invalid] world
    = (Ok (Some (ValErrors m), verifier (options root_ok)),
       mkWorld (clock world) 2%nat, evs)
    /\ m !! "pub_signals/id_state_hash" = Some (ErrOther "invalid root")
    /\ Forall (fun ev => ~ isGroth16 ev) evs.
Proof.
  apply (root_rejection_is_a_field_error parseDate decodeInt groth16_ok
           (verifier (options root_ok)) (proof "3" "20200101")
           [fun o => optionsBounded (-1) time.zero root_invalid] world
           (ErrOther "invalid root")).
  - eexists. reflexivity.
  - reflexivity.
  - reflexivity.
  - reflexivity.
Defined.

Lemma nullifier_witness :
  exists (m : gmap string err) (evs : list event),
    validateBase parseDate decodeInt (verifier (options root_ok))
                 anonymousProof world
    = (Ok (Some (ValErrors m)), mkWorld (clock world) 2%nat, evs)
    /\ m !! "pub_signals/nullifier" = Some ErrRequired
    /\ m !! "pub_signals/selector" = None.
Proof.
  apply (nullifier_and_selector_are_always_checked parseDate decodeInt
           (verifier (options root_ok)) anonymousProof world).
  - eexists. reflexivity.
  - reflexivity.
  - reflexivity.
  - left. reflexivity.
Defined.

Lemma accepted_witness :
  signal (PubSignals (proof "3" "20200101")) Selector = "39"
  /\ rootVerifier (opts (verifier (options root_ok)))
       (signal (PubSignals (proof "3" "20200101")) IdStateRoot) = None.
Proof.
  destruct (accepted_proof_passed_the_required_checks parseDate decodeInt
              (verifier (options root_ok)) (proof "3" "20200101") world
              (mkWorld (clock world) 2%nat)
              (baseReads (signals "3" "20200101") None))
    as (_ & _ & _ & Hsel & _ & Hroot & _).
  - vm_compute. reflexivity.
  - split; [exact Hsel | exact Hroot].
Defined.

Lemma bindings_witness :
  signal (PubSignals (proof "3" "20200101")) EventID = eventID boundOptions
  /\ List.In (decodeInt (signal (PubSignals (proof "3" "20200101")) Citizenship))
             ["USA"; "UKR"].
Proof.
  destruct (accepted_proof_matches_the_configuration parseDate decodeInt
              (verifier boundOptions) (proof "3" "20200101") world
              (mkWorld (clock world) 2%nat)
              (baseReads (signals "3" "20200101") None))
    as (Hev & Hcit & _).
  - vm_compute. reflexivity.
  - split.
    + apply Hev. discriminate.
    + apply Hcit; [reflexivity | discriminate].
Defined.

Lemma merged_age_witness :
  exists o,
    Earlier.mergeOptions
      ([Earlier.WithEventID "1"] ++ Earlier.WithAgeAbove 18
         :: [Earlier.WithCitizenships ["UKR"]]) world
    = (Ok o, mkWorld (clock world) 1%nat, [])
    /\ Earlier.age o = time.mkTime 2006 6 14 noon.
Proof.
  apply (Earlier.merged_age_is_fixed_at_merge
           [Earlier.WithEventID "1"] [Earlier.WithCitizenships ["UKR"]] 18
           world world
           (Earlier.mkVerifyOptions "" time.zero [] [] "1") []).
  - reflexivity.
  - constructor; [|constructor].
    exact (proj1 (proj2 (Earlier.mutators_keepAge "" ["UKR"] [] ""))).
Defined.

End ConcreteMore.
